(** * IMDB movie reviews dataset builder
    (tensorflow_datasets/text/imdb.py)

    A shallow embedding of [IMDBReviewsConfig], [IMDBReviews._info],
    [IMDBReviews._vocab_text_gen], [IMDBReviews._split_generators] and
    [IMDBReviews._generate_examples], with the Python library calls they
    rest on ([str.strip], [os.path.join]) and the file system of
    [tf.gfile] as an explicit, fallible store. *)

From Stdlib Require Import String Ascii List Bool Arith NArith Lia.
Import ListNotations.
Local Open Scope list_scope.
Local Open Scope string_scope.

Set Implicit Arguments.

(** ** Python strings

    A Python 3 [str] is a [string]: one [ascii] per character, the
    character of that code point. *)

Module Str.

(** [str.isspace] of one character, on the code points below 256:
    TAB, LF, VT, FF, CR, the separators FS GS RS US, SPACE, NEL and NBSP. *)
Definition isspace (c : ascii) : bool :=
  let n := nat_of_ascii c in
  (((9 <=? n) && (n <=? 13)) || ((28 <=? n) && (n <=? 32))
   || (n =? 133) || (n =? 160))%nat.

(** The left scan of [str.strip]: skip characters while they are spaces. *)
Fixpoint lstrip_chars (l : list ascii) : list ascii :=
  match l with
  | [] => []
  | c :: l' => if isspace c then lstrip_chars l' else l
  end.

(** The right scan, the same walk from the far end. *)
Definition rstrip_chars (l : list ascii) : list ascii :=
  rev (lstrip_chars (rev l)).

Definition strip_chars (l : list ascii) : list ascii :=
  rstrip_chars (lstrip_chars l).

(** [s.strip()] with no argument. *)
Definition strip (s : string) : string :=
  string_of_list_ascii (strip_chars (list_ascii_of_string s)).

(** [s.startswith(p)] and [s.endswith(p)]. *)
Definition startswith (s p : string) : bool := String.prefix p s.

Definition rev_string (s : string) : string :=
  string_of_list_ascii (rev (list_ascii_of_string s)).

Definition endswith (s p : string) : bool :=
  String.prefix (rev_string p) (rev_string s).

(** Runs of whitespace, and texts that neither start nor end with
    whitespace. *)
Definition spaces (l : list ascii) : Prop :=
  Forall (fun c => isspace c = true) l.

Definition all_space (s : string) : Prop :=
  spaces (list_ascii_of_string s).

Definition no_leading_space (s : string) : Prop :=
  forall c s', s = String c s' -> isspace c = false.

Definition no_trailing_space (s : string) : Prop :=
  forall c s', s = s' ++ String c EmptyString -> isspace c = false.

(** What the specification asks of a stripped text, in its own words:
    [text] is [content] with the leading and trailing whitespace removed
    and nothing else changed. *)
Definition whitespace_removed (content text : string) : Prop :=
  exists pre post,
    content = pre ++ text ++ post
    /\ all_space pre /\ all_space post
    /\ no_leading_space text /\ no_trailing_space text.

End Str.

(** ** [os.path] (posixpath) *)

Module os_path.

Definition sep : string := "/".

(** One round of the loop of [posixpath.join]: a component that starts
    with the separator restarts the path; otherwise it is appended, with
    a separator unless the path is empty or already ends with one. *)
Definition join_step (path b : string) : string :=
  if Str.startswith b sep then b
  else if (path =? "") || Str.endswith path sep then path ++ b
  else path ++ sep ++ b.

(** [os.path.join(a, *p)]. *)
Definition join (a : string) (p : list string) : string :=
  fold_left join_step p a.

End os_path.

(** ** Exceptions and the file system

    The errors of [tf.errors] that listing, opening and reading raise,
    and the failure of the download manager.  A call that may raise
    returns [exn + A]. *)

Inductive exn : Type :=
| NotFoundError (message : string)
| PermissionDeniedError (message : string)
| FailedPreconditionError (message : string)
| UnknownError (message : string)
| DownloadError (message : string).

(** The file object of [tf.gfile.Open]: [read()] gives the whole content
    or raises. *)
Record GFile : Type := { read : exn + string }.

(** [tf.gfile]: the two calls the builder makes. *)
Record FileSystem : Type := {
  ListDirectory : string -> exn + list string;
  Open : string -> exn + GFile
}.

(** [dl_manager]: [download_and_extract(url)] gives the local path of the
    extracted archive or raises. *)
Record DownloadManager : Type := {
  download_and_extract : string -> exn + string
}.

(** ** Generators

    A generator run to exhaustion: the values it yields, in order, and
    how it ends, by returning or by raising.  A raise ends the run, so
    nothing is yielded after it. *)

Definition gen (Y A : Type) : Type := (list Y * (exn + A))%type.

Definition generator (Y : Type) : Type := gen Y unit.

Definition ret {Y A} (a : A) : gen Y A := ([], inr a).

Definition bind {Y A B} (m : gen Y A) (k : A -> gen Y B) : gen Y B :=
  match m with
  | (ys, inl e) => (ys, inl e)
  | (ys, inr a) => let (zs, r) := k a in ((ys ++ zs)%list, r)
  end.

(** [yield y]. *)
Definition yield {Y} (y : Y) : gen Y unit := ([y], inr tt).

(** A call to the outside that may raise. *)
Definition call {Y A} (r : exn + A) : gen Y A := ([], r).

Declare Scope gen_scope.
Delimit Scope gen_scope with gen.
Notation "x <- m ;; k" := (bind m (fun x => k))
  (at level 100, m at next level, right associativity) : gen_scope.
Local Open Scope gen_scope.

(** [for x in xs: body(x)] over a list. *)
Fixpoint for_ {X Y} (xs : list X) (body : X -> gen Y unit) : gen Y unit :=
  match xs with
  | [] => ret tt
  | x :: xs' => _ <- body x ;; for_ xs' body
  end.

(** [for x in g: body(x)] over a generator: the loop body runs on each
    value [g] yields; when [g] raises, the loop raises at that point. *)
Definition for_gen {X Y} (g : generator X) (body : X -> gen Y unit)
  : gen Y unit :=
  _ <- for_ (fst g) body ;; call (snd g).

(** The values yielded and the exception that ended the run, if any. *)
Definition yielded {Y A} (g : gen Y A) : list Y := fst g.

Definition raised {Y A} (g : gen Y A) : option exn :=
  match snd g with inl e => Some e | inr _ => None end.

(** ** Configurations *)

Inductive TextEncoder : Type := ByteTextEncoder.

Inductive TextEncoderClass : Type := SubwordTextEncoder.

(** [tfds.features.text.TextEncoderConfig(encoder=None, encoder_cls=None,
    vocab_size=None)]. *)
Record TextEncoderConfig : Type := {
  encoder : option TextEncoder;
  encoder_cls : option TextEncoderClass;
  vocab_size : option N
}.

Definition TextEncoderConfig_default : TextEncoderConfig :=
  {| encoder := None; encoder_cls := None; vocab_size := None |}.

Record IMDBReviewsConfig : Type := {
  name : string;
  version : string;
  description : string;
  text_encoder_config : TextEncoderConfig
}.

(** [IMDBReviewsConfig.__init__]: a missing [text_encoder_config] is the
    default one. *)
Definition IMDBReviewsConfig_init
  (text_encoder_config : option TextEncoderConfig)
  (name version description : string) : IMDBReviewsConfig :=
  {| name := name;
     version := version;
     description := description;
     text_encoder_config :=
       match text_encoder_config with
       | Some c => c
       | None => TextEncoderConfig_default
       end |}.

Definition BUILDER_CONFIGS : list IMDBReviewsConfig :=
  [ IMDBReviewsConfig_init None "plain_text" "0.0.1" "Plain text";
    IMDBReviewsConfig_init
      (Some {| encoder := Some ByteTextEncoder; encoder_cls := None;
               vocab_size := None |})
      "bytes" "0.0.1"
      "Uses byte-level text encoding with `tfds.features.text.ByteTextEncoder`";
    IMDBReviewsConfig_init
      (Some {| encoder := None; encoder_cls := Some SubwordTextEncoder;
               vocab_size := Some (2 ^ 13)%N |})
      "subwords8k" "0.0.1"
      "Uses `tfds.features.text.SubwordTextEncoder` with 8k vocab size";
    IMDBReviewsConfig_init
      (Some {| encoder := None; encoder_cls := Some SubwordTextEncoder;
               vocab_size := Some (2 ^ 15)%N |})
      "subwords32k" "0.0.1"
      "Uses `tfds.features.text.SubwordTextEncoder` with 32k vocab size" ].

(** ** Dataset metadata *)

Definition _DESCRIPTION : string :=
  "Large Movie Review Dataset.
This is a dataset for binary sentiment classification containing substantially more data than previous benchmark datasets. We provide a set of 25,000 highly polar movie reviews for training, and 25,000 for testing.".

Definition _CITATION : string :=
  "@InProceedings{maas-EtAl:2011:ACL-HLT2011,
  author    = {Maas, Andrew L.  and  Daly, Raymond E.  and  Pham, Peter T.  and  Huang, Dan  and  Ng, Andrew Y.  and  Potts, Christopher},
  title     = {Learning Word Vectors for Sentiment Analysis},
  booktitle = {Proceedings of the 49th Annual Meeting of the Association for Computational Linguistics: Human Language Technologies},
  month     = {June},
  year      = {2011},
  address   = {Portland, Oregon, USA},
  publisher = {Association for Computational Linguistics},
  pages     = {142--150},
  url       = {http://www.aclweb.org/anthology/P11-1015}
}
".

Definition _DOWNLOAD_URL : string :=
  "http://ai.stanford.edu/~amaas/data/sentiment/aclImdb_v1.tar.gz".

(** [tfds.units.MiB]. *)
Definition MiB : N := (2 ^ 20)%N.

(** [tfds.features.Text(encoder_config=...)]. *)
Record Text : Type := { encoder_config : TextEncoderConfig }.

(** [tfds.features.ClassLabel(names=...)]: a label is stored as its
    position in [names]. *)
Record ClassLabel : Type := { names : list string }.

(** The [FeaturesDict] of the dataset, with its two keys. *)
Record FeaturesDict : Type := {
  text_feature : Text;
  label_feature : ClassLabel
}.

Record DatasetInfo : Type := {
  info_name : string;
  info_description : string;
  info_version : string;
  config_name : string;
  features : FeaturesDict;
  supervised_keys : string * string;
  urls : list string;
  size_in_bytes : N;
  citation : string
}.

(** The builder instance: its registered name and its active
    configuration. *)
Record IMDBReviews : Type := {
  builder_name : string;
  _builder_config : IMDBReviewsConfig
}.

Definition _info (self : IMDBReviews) : DatasetInfo :=
  {| info_name := builder_name self;
     info_description := _DESCRIPTION;
     info_version := version (_builder_config self);
     config_name := name (_builder_config self);
     features :=
       {| text_feature :=
            {| encoder_config := text_encoder_config (_builder_config self) |};
          label_feature := {| names := ["neg"; "pos"] |} |};
     supervised_keys := ("text", "label");
     urls := ["http://ai.stanford.edu/~amaas/data/sentiment/"];
     size_in_bytes := (85 * MiB)%N;
     citation := _CITATION |}.

(** ** Splits *)

Inductive Split : Type := TRAIN | VALIDATION | TEST.

(** The name of a [tfds.Split]. *)
Definition Split_name (s : Split) : string :=
  match s with
  | TRAIN => "train"
  | VALIDATION => "validation"
  | TEST => "test"
  end.

(** [tfds.core.SplitGenerator(name, num_shards, gen_kwargs)]: [split] is
    its [name] argument, and [gen_kwargs] the dictionary of keyword
    arguments handed to [_generate_examples]. *)
Record SplitGenerator : Type := {
  split : Split;
  num_shards : N;
  gen_kwargs : list (string * string)
}.

(** ** Examples *)

(** The dictionary [{"text": text, "label": label}] built per file. *)
Record example_dict : Type := {
  text : string;
  label : string
}.

(** ** The text-encoding strategies and vocabulary building *)

(** Modelled from the spec: the text-encoding strategy a configuration
    binds (section 3: identity/raw, byte-level, subword with a vocabulary
    size); the framework class that reads it off a [TextEncoderConfig] is
    not part of this file. *)
Inductive strategy : Type :=
| RawText
| ByteLevel
| Subword (size : option N).

(** Modelled from the spec: the strategy of a [TextEncoderConfig], which
    the framework's text feature derives and this file does not hold: a
    subword encoder class gives the subword strategy with the configured
    vocabulary size, a byte-level encoder the byte-level one, and a
    configuration with neither the plain text. *)
Definition strategy_of (c : TextEncoderConfig) : strategy :=
  match encoder_cls c, encoder c with
  | Some SubwordTextEncoder, _ => Subword (vocab_size c)
  | None, Some ByteTextEncoder => ByteLevel
  | None, None => RawText
  end.

(** Modelled from the spec: a strategy that requires a learned
    vocabulary, that is, a subword variant (section 4.2). *)
Definition subword_based (c : TextEncoderConfig) : bool :=
  match strategy_of c with
  | Subword _ => true
  | _ => false
  end.

(** ** The builder

    The feature encoding of the framework is a parameter:
    [encode_example self d] is [self.info.features.encode_example(d)], a
    stored record, and [getitem r k] is [r[k]] on a stored record. *)

Section Builder.

Variable stored_record : Type.
Variable item : Type.
Variable encode_example : IMDBReviews -> example_dict -> stored_record.
Variable getitem : stored_record -> string -> item.

Definition _generate_examples (self : IMDBReviews) (fs : FileSystem)
  (directory : string) : generator stored_record :=
  let pos_dir := os_path.join directory ["pos"] in
  let neg_dir := os_path.join directory ["neg"] in
  for_ [(pos_dir, "pos"); (neg_dir, "neg")] (fun '(d, label) =>
    filenames <- call (ListDirectory fs d) ;;
    for_ filenames (fun filename =>
      imdb_f <- call (Open fs (os_path.join d [filename])) ;;
      content <- call (read imdb_f) ;;
      let text := Str.strip content in
      yield (encode_example self {| text := text; label := label |}))).

Definition _vocab_text_gen (self : IMDBReviews) (fs : FileSystem)
  (train_dir : string) : generator item :=
  for_gen (_generate_examples self fs train_dir) (fun ex =>
    yield (getitem ex "text")).

(** One run of vocabulary building: the target size and the texts it
    consumed. *)
Record vocabulary_build : Type := {
  target_vocab_size : option N;
  corpus : list item
}.

(** The vocabulary builds of a dataset build, oldest first. *)
Definition build_log : Type := list vocabulary_build.

(** Modelled from the spec: [Text.maybe_build_from_corpus], the
    framework call of sections 4.2 and 6, which is not part of this file.
    Vocabulary building is invoked, on the whole text sequence, when the
    feature's text-encoding strategy is subword-based, and not at all
    otherwise; an error of the sequence is not swallowed. *)
Definition maybe_build_from_corpus (feature : Text)
  (corpus_generator : generator item) (log : build_log)
  : build_log * (exn + unit) :=
  match strategy_of (encoder_config feature) with
  | Subword size =>
      ((log ++ [ {| target_vocab_size := size;
                    corpus := yielded corpus_generator |} ])%list,
       snd corpus_generator)
  | _ => (log, inr tt)
  end.

Definition _split_generators (self : IMDBReviews)
  (dl_manager : DownloadManager) (fs : FileSystem) (log : build_log)
  : build_log * (exn + list SplitGenerator) :=
  match download_and_extract dl_manager _DOWNLOAD_URL with
  | inl e => (log, inl e)
  | inr imdb_path =>
      let train_dir := os_path.join imdb_path ["aclImdb"; "train"] in
      let test_dir := os_path.join imdb_path ["aclImdb"; "test"] in
      match maybe_build_from_corpus (text_feature (features (_info self)))
              (_vocab_text_gen self fs train_dir) log with
      | (log', inl e) => (log', inl e)
      | (log', inr _) =>
          (log',
           inr [ {| split := TRAIN; num_shards := 10;
                    gen_kwargs := [("directory", train_dir)] |};
                 {| split := TEST; num_shards := 10;
                    gen_kwargs := [("directory", test_dir)] |} ])
      end
  end.

End Builder.

(** ** The files of a split directory, in the order they are visited

    The definitions below are not in the source: they name what the
    generator does with one file and with one directory, so that the
    properties can speak of the file an example comes from.  Each is tied
    to [_generate_examples] by a lemma. *)

(** Opening a file and reading it whole, as the [with] block does. *)
Definition read_text (fs : FileSystem) (path : string) : exn + string :=
  match Open fs path with
  | inl e => inl e
  | inr imdb_f => read imdb_f
  end.

Definition readable (fs : FileSystem) (path : string) : bool :=
  match read_text fs path with
  | inr _ => true
  | inl _ => false
  end.

(** The dictionary built from one file, or the error of opening or
    reading it. *)
Definition attempt (fs : FileSystem) (d label filename : string)
  : exn + example_dict :=
  match read_text fs (os_path.join d [filename]) with
  | inl e => inl e
  | inr content => inr {| text := Str.strip content; label := label |}
  end.

(** What every step of a run comes to, in order: one attempt per listed
    file, the "pos" files before the "neg" ones, and the error of a
    listing where a listing raises. *)
Definition plan (fs : FileSystem) (directory : string)
  : list (exn + example_dict) :=
  let pos_dir := os_path.join directory ["pos"] in
  let neg_dir := os_path.join directory ["neg"] in
  match ListDirectory fs pos_dir with
  | inl e => [inl e]
  | inr pos_files =>
      (map (attempt fs pos_dir "pos") pos_files ++
       match ListDirectory fs neg_dir with
       | inl e => [inl e]
       | inr neg_files => map (attempt fs neg_dir "neg") neg_files
       end)%list
  end.

(** The listing of a directory, empty when listing raises. *)
Definition listing (fs : FileSystem) (d : string) : list string :=
  match ListDirectory fs d with
  | inr filenames => filenames
  | inl _ => []
  end.

(** The files a run gets to, as (subdirectory, label, filename), in the
    order of the two listings: none when the first listing raises, those
    of "pos" alone when the second does. *)
Definition sources (fs : FileSystem) (directory : string)
  : list (string * string * string) :=
  let pos_dir := os_path.join directory ["pos"] in
  let neg_dir := os_path.join directory ["neg"] in
  match ListDirectory fs pos_dir with
  | inl _ => []
  | inr pos_files =>
      (map (fun filename => (pos_dir, "pos", filename)) pos_files ++
       map (fun filename => (neg_dir, "neg", filename)) (listing fs neg_dir))%list
  end.

Definition attempt_source (fs : FileSystem) (s : string * string * string)
  : exn + example_dict :=
  let '(d, lbl, filename) := s in attempt fs d lbl filename.

(** The label of an outcome, if it is an example. *)
Definition outcome_label (o : exn + example_dict) : option string :=
  match o with
  | inl _ => None
  | inr ex => Some (label ex)
  end.

(** Running a list of outcomes as a generator: yield each value, stop at
    the first error. *)
Definition collect {Y} (outcomes : list (exn + Y)) : generator Y :=
  for_ outcomes (fun r => y <- call r ;; yield y).

Definition map_gen {X Y A} (f : X -> Y) (g : gen X A) : gen Y A :=
  (map f (fst g), snd g).

Definition map_inr {X Y} (f : X -> Y) (r : exn + X) : exn + Y :=
  match r with
  | inl e => inl e
  | inr x => inr (f x)
  end.

(** ** Small corpora and a builder, for the examples *)

Definition LF : string := String "010"%char EmptyString.

(** A file object over a content. *)
Definition file_of (content : string) : exn + GFile :=
  inr {| read := inr content |}.

(** Two positive reviews and a negative one. *)
Definition corpus_fs : FileSystem :=
  {| ListDirectory := fun d =>
       if d =? "train/pos" then inr ["0_9.txt"; "1_7.txt"]
       else if d =? "train/neg" then inr ["0_3.txt"]
       else inl (NotFoundError d);
     Open := fun path =>
       if path =? "train/pos/0_9.txt" then file_of ("  Loved it." ++ LF)
       else if path =? "train/pos/1_7.txt" then file_of "A fine film"
       else if path =? "train/neg/0_3.txt" then file_of (LF ++ "Dull. " ++ LF)
       else inl (NotFoundError path) |}.

(** The same listings over other contents, and an unrelated file. *)
Definition corpus_fs' : FileSystem :=
  {| ListDirectory := fun d =>
       if d =? "train/pos" then inr ["0_9.txt"; "1_7.txt"]
       else if d =? "train/neg" then inr ["0_3.txt"]
       else if d =? "test/pos" then inr ["5_8.txt"]
       else inl (NotFoundError d);
     Open := fun path =>
       if path =? "train/pos/0_9.txt" then file_of "terrible, awful"
       else if path =? "train/pos/1_7.txt" then file_of "neg"
       else if path =? "train/neg/0_3.txt" then file_of "pos"
       else if path =? "test/pos/5_8.txt" then file_of "Good."
       else inl (NotFoundError path) |}.

(** [corpus_fs] with an unrelated file added. *)
Definition corpus_fs_more : FileSystem :=
  {| ListDirectory := fun d =>
       if d =? "test/pos" then inr ["5_8.txt"] else ListDirectory corpus_fs d;
     Open := fun path =>
       if path =? "test/pos/5_8.txt" then file_of "Good."
       else Open corpus_fs path |}.

(** The second positive review cannot be read. *)
Definition broken_fs : FileSystem :=
  {| ListDirectory := ListDirectory corpus_fs;
     Open := fun path =>
       if path =? "train/pos/1_7.txt"
       then inr {| read := inl (PermissionDeniedError path) |}
       else Open corpus_fs path |}.

(** One positive review, no negative one. *)
Definition great_movie_fs : FileSystem :=
  {| ListDirectory := fun d =>
       if d =? "train/pos" then inr ["0_10.txt"]
       else if d =? "train/neg" then inr []
       else inl (NotFoundError d);
     Open := fun path =>
       if path =? "train/pos/0_10.txt" then file_of ("Great movie!" ++ LF)
       else inl (NotFoundError path) |}.

(** The archive extracted under "/data", with one review of each kind
    for training. *)
Definition extracted_fs : FileSystem :=
  {| ListDirectory := fun d =>
       if d =? "/data/aclImdb/train/pos" then inr ["0_9.txt"]
       else if d =? "/data/aclImdb/train/neg" then inr ["0_3.txt"]
       else inl (NotFoundError d);
     Open := fun path =>
       if path =? "/data/aclImdb/train/pos/0_9.txt" then file_of "Loved it."
       else if path =? "/data/aclImdb/train/neg/0_3.txt" then file_of "Dull."
       else inl (NotFoundError path) |}.

(** The encoding that stores the dictionary as it is. *)
Definition store_as_is (self : IMDBReviews) (d : example_dict) : example_dict := d.

Definition field (d : example_dict) (key : string) : string :=
  if key =? "text" then text d else label d.

Definition builder_of (config : IMDBReviewsConfig) : IMDBReviews :=
  {| builder_name := "imdb_reviews"; _builder_config := config |}.

Definition plain_text_config : IMDBReviewsConfig :=
  IMDBReviewsConfig_init None "plain_text" "0.0.1" "Plain text".

(** A download manager that extracts the archive under a fixed path. *)
Definition extracted_at (path : string) : DownloadManager :=
  {| download_and_extract := fun _ => inr path |}.

(** The split descriptors in the words of the specification: "train"
    then "test", ten shards each, over [<root>/train] and [<root>/test]. *)
Definition descriptors_as_specified (root : string) : list SplitGenerator :=
  [ {| split := TRAIN; num_shards := 10;
       gen_kwargs := [("directory", root ++ "/train")] |};
    {| split := TEST; num_shards := 10;
       gen_kwargs := [("directory", root ++ "/test")] |} ].

(** [names.index(s)]: the place of the first [s] in a list. *)
Fixpoint index_of (s : string) (l : list string) : option nat :=
  match l with
  | [] => None
  | x :: l' =>
      if x =? s then Some 0
      else match index_of s l' with
           | Some n => Some (S n)
           | None => None
           end
  end.

(** ** More corpora, for the further examples *)

(** A split directory without its "pos" subdirectory. *)
Definition no_pos_fs : FileSystem :=
  {| ListDirectory := fun d =>
       if d =? "train/neg" then inr ["0_3.txt"] else inl (NotFoundError d);
     Open := fun path =>
       if path =? "train/neg/0_3.txt" then file_of "Dull."
       else inl (NotFoundError path) |}.

(** A split directory without its "neg" subdirectory. *)
Definition no_neg_fs : FileSystem :=
  {| ListDirectory := fun d =>
       if d =? "train/pos" then inr ["0_9.txt"; "1_7.txt"]
       else inl (NotFoundError d);
     Open := Open corpus_fs |}.

(** The reviews of [corpus_fs] under other file names. *)
Definition renamed_fs : FileSystem :=
  {| ListDirectory := fun d =>
       if d =? "train/pos" then inr ["a"; "b"]
       else if d =? "train/neg" then inr ["c"]
       else inl (NotFoundError d);
     Open := fun path =>
       if path =? "train/pos/a" then file_of ("  Loved it." ++ LF)
       else if path =? "train/pos/b" then file_of "A fine film"
       else if path =? "train/neg/c" then file_of (LF ++ "Dull. " ++ LF)
       else inl (NotFoundError path) |}.

(** An empty review and one made of whitespace. *)
Definition blank_fs : FileSystem :=
  {| ListDirectory := fun d =>
       if d =? "train/pos" then inr ["0_9.txt"]
       else if d =? "train/neg" then inr ["0_3.txt"]
       else inl (NotFoundError d);
     Open := fun path =>
       if path =? "train/pos/0_9.txt" then file_of ""
       else if path =? "train/neg/0_3.txt" then file_of ("  " ++ LF)
       else inl (NotFoundError path) |}.

(** ** The calls of a run

    The example generator once more, with what it does to the outside
    written down as it goes: each listing, each [tf.gfile.Open], each
    entry into and exit from the [with] block (the exit closes the
    file), each [read] and each [yield].  The run is again its trace,
    now a trace of events. *)

Inductive event (R : Type) : Type :=
| Listing (d : string)
| Opening (path : string)
| Entered (path : string)
| Reading (path : string)
| Yielding (r : R)
| Exited (path : string).

Arguments Listing {R} d.
Arguments Opening {R} path.
Arguments Entered {R} path.
Arguments Reading {R} path.
Arguments Exited {R} path.

(** Writing an event down. *)
Definition note {Y} (ev : Y) : gen Y unit := ([ev], inr tt).

(** [try: m finally: cleanup]: what the clean-up does comes after what
    [m] did, whether [m] returns or raises. *)
Definition finally {Y A} (m : gen Y A) (cleanup : list Y) : gen Y A :=
  ((fst m ++ cleanup)%list, snd m).

(** [with opened as x: body x] on the file at [path]: when opening
    raises, the block is not entered; once entered, it is exited, and
    the file closed, however the body ends. *)
Definition with_ {R A} (path : string) (opened : exn + GFile)
  (body : GFile -> gen (event R) A) : gen (event R) A :=
  x <- call opened ;;
  _ <- note (Entered path) ;;
  finally (body x) [Exited path].

Section Calls.

Variable stored_record : Type.
Variable encode_example : IMDBReviews -> example_dict -> stored_record.

Definition _generate_examples_calls (self : IMDBReviews) (fs : FileSystem)
  (directory : string) : gen (event stored_record) unit :=
  let pos_dir := os_path.join directory ["pos"] in
  let neg_dir := os_path.join directory ["neg"] in
  for_ [(pos_dir, "pos"); (neg_dir, "neg")] (fun '(d, label) =>
    _ <- note (Listing d) ;;
    filenames <- call (ListDirectory fs d) ;;
    for_ filenames (fun filename =>
      _ <- note (Opening (os_path.join d [filename])) ;;
      with_ (os_path.join d [filename]) (Open fs (os_path.join d [filename]))
        (fun imdb_f =>
           _ <- note (Reading (os_path.join d [filename])) ;;
           content <- call (read imdb_f) ;;
           let text := Str.strip content in
           note (Yielding
                   (encode_example self {| text := text; label := label |}))))).

End Calls.

(** The values yielded, the paths [tf.gfile.Open] was called on, and the
    listings made, in order. *)
Definition yields_of {R} (evs : list (event R)) : list R :=
  flat_map (fun ev => match ev with Yielding r => [r] | _ => [] end) evs.

Definition openings {R} (evs : list (event R)) : list string :=
  flat_map (fun ev => match ev with Opening path => [path] | _ => [] end) evs.

Definition listings {R} (evs : list (event R)) : list string :=
  flat_map (fun ev => match ev with Listing d => [d] | _ => [] end) evs.

(** The files inside their [with] block after some events, given those
    that were before. *)
Fixpoint open_after {R} (opened : list string) (evs : list (event R))
  : list string :=
  match evs with
  | [] => opened
  | Entered path :: evs' => open_after (path :: opened) evs'
  | Exited path :: evs' => open_after (remove string_dec path opened) evs'
  | _ :: evs' => open_after opened evs'
  end.

(** The path of a source. *)
Definition source_path (s : string * string * string) : string :=
  os_path.join (fst (fst s)) [snd s].

(** A run of events that leaves no file open and has opened one file
    per value yielded. *)
Definition settled {R} (evs : list (event R)) : Prop :=
  open_after [] evs = [] /\ length (openings evs) = length (yields_of evs).

(** A run of events in which at most one file is open at any time and
    none at the end, and in which each value is yielded inside the
    [with] block of a file: right after that file was opened, entered
    and read, everything before being settled, and right before the file
    is closed. *)
Definition orderly {R} (evs : list (event R)) : Prop :=
  open_after [] evs = []
  /\ (forall pre post, evs = (pre ++ post)%list ->
       length (open_after [] pre) <= 1)
  /\ (forall pre r post, evs = (pre ++ Yielding r :: post)%list ->
       exists path before post',
         pre = (before ++ [Opening path; Entered path; Reading path])%list
         /\ settled before
         /\ post = Exited path :: post').

(** A traced computation is well behaved when its events are orderly
    and, if it returns, settled. *)
Definition well_behaved {R A} (g : gen (event R) A) : Prop :=
  orderly (fst g) /\ (forall a, snd g = inr a -> settled (fst g)).

(** Forgetting all events of a trace but the yields. *)
Definition erase {R A} (g : gen (event R) A) : gen R A :=
  (yields_of (fst g), snd g).

(** The events of one file and the ending of its turn, by the outcome
    of opening and of reading it. *)
Definition calls_of_file {R} (encode : example_dict -> R) (fs : FileSystem)
  (d label filename : string) : gen (event R) unit :=
  let path := os_path.join d [filename] in
  match Open fs path with
  | inl e => ([Opening path], inl e)
  | inr imdb_f =>
      match read imdb_f with
      | inl e => ([Opening path; Entered path; Reading path; Exited path],
                  inl e)
      | inr content =>
          ([Opening path; Entered path; Reading path;
            Yielding (encode {| text := Str.strip content; label := label |});
            Exited path], inr tt)
      end
  end.

(** The events of one subdirectory: its listing, then its files. *)
Definition calls_of_directory {R} (encode : example_dict -> R)
  (fs : FileSystem) (d label : string) : gen (event R) unit :=
  match ListDirectory fs d with
  | inl e => ([Listing d], inl e)
  | inr filenames =>
      let g := for_ filenames (calls_of_file encode fs d label) in
      (Listing d :: fst g, snd g)
  end.

(** * Properties *)

(** ** Library calls on concrete inputs *)

Example strip_great_movie :
  Str.strip ("Great movie!" ++ String (ascii_of_nat 10) "") = "Great movie!".
Proof. reflexivity. Qed.

Example join_pos : os_path.join "train" ["pos"] = "train/pos".
Proof. reflexivity. Qed.

Example join_trailing_sep : os_path.join "/data/" ["aclImdb"; "train"] = "/data/aclImdb/train".
Proof. reflexivity. Qed.

Example join_empty : os_path.join "" ["aclImdb"; "train"] = "aclImdb/train".
Proof. reflexivity. Qed.

Example join_absolute : os_path.join "train/pos" ["/etc/passwd"] = "/etc/passwd".
Proof. reflexivity. Qed.

(** ** [str.strip] *)

Section StripFacts.

Import Str.

Lemma lstrip_chars_split (l : list ascii) :
  exists pre, l = (pre ++ lstrip_chars l)%list /\ spaces pre.
Proof.
  unfold spaces. induction l as [|c l IH]; simpl.
  - exists []. split; [reflexivity | constructor].
  - destruct (isspace c) eqn:Hc.
    + destruct IH as [pre [Heq Hpre]].
      exists (c :: pre). split.
      * simpl. now rewrite <- Heq.
      * constructor; assumption.
    + exists []. split; [reflexivity | constructor].
Qed.

Lemma lstrip_chars_head (l : list ascii) c l' :
  lstrip_chars l = c :: l' -> isspace c = false.
Proof.
  induction l as [|a l IH]; simpl; [discriminate|].
  destruct (isspace a) eqn:Ha; [exact IH|].
  intros H. injection H as -> _. exact Ha.
Qed.

Lemma lstrip_chars_skip (pre l : list ascii) :
  spaces pre -> lstrip_chars (pre ++ l) = lstrip_chars l.
Proof.
  unfold spaces. induction 1 as [|c pre Hc _ IH]; simpl; [reflexivity|].
  now rewrite Hc.
Qed.

Lemma lstrip_chars_fixed (c : ascii) (l : list ascii) :
  isspace c = false -> lstrip_chars (c :: l) = c :: l.
Proof. intros Hc. simpl. now rewrite Hc. Qed.

Lemma lstrip_chars_all_space (l : list ascii) :
  spaces l -> lstrip_chars l = [].
Proof.
  intros H. rewrite <- (app_nil_r l). now rewrite lstrip_chars_skip.
Qed.

Lemma spaces_rev (l : list ascii) : spaces l -> spaces (rev l).
Proof.
  unfold spaces. intros H. apply Forall_forall. intros x Hx.
  apply in_rev in Hx. revert x Hx. now apply Forall_forall.
Qed.

Lemma rstrip_chars_split (l : list ascii) :
  exists post, l = (rstrip_chars l ++ post)%list /\ spaces post.
Proof.
  unfold rstrip_chars.
  destruct (lstrip_chars_split (rev l)) as [pre [Heq Hpre]].
  exists (rev pre). split.
  - rewrite <- rev_app_distr, <- Heq. symmetry. apply rev_involutive.
  - now apply spaces_rev.
Qed.

Lemma rstrip_chars_last (l m : list ascii) c :
  rstrip_chars l = (m ++ [c])%list -> isspace c = false.
Proof.
  unfold rstrip_chars. intros H.
  apply (f_equal (@rev ascii)) in H.
  rewrite rev_involutive, rev_app_distr in H. simpl in H.
  eapply lstrip_chars_head; exact H.
Qed.

Lemma rstrip_chars_skip (l post : list ascii) :
  spaces post -> rstrip_chars (l ++ post) = rstrip_chars l.
Proof.
  intros H. unfold rstrip_chars. rewrite rev_app_distr.
  rewrite lstrip_chars_skip; [reflexivity | now apply spaces_rev].
Qed.

Lemma rstrip_chars_fixed (l : list ascii) c :
  isspace c = false -> rstrip_chars (l ++ [c]) = (l ++ [c])%list.
Proof.
  intros Hc. unfold rstrip_chars. rewrite rev_app_distr. simpl.
  rewrite Hc. simpl. now rewrite rev_involutive.
Qed.

Lemma rstrip_chars_nil : rstrip_chars [] = [].
Proof. reflexivity. Qed.

(** The right scan keeps the first character of what it leaves. *)
Lemma rstrip_chars_head (l : list ascii) c l' :
  rstrip_chars l = c :: l' -> exists l'', l = c :: l''.
Proof.
  intros H. destruct (rstrip_chars_split l) as [post [Heq _]].
  rewrite H in Heq. simpl in Heq. eauto.
Qed.

Lemma strip_chars_split (l : list ascii) :
  exists pre post,
    l = (pre ++ strip_chars l ++ post)%list
    /\ spaces pre /\ spaces post.
Proof.
  destruct (lstrip_chars_split l) as [pre [Hl Hpre]].
  destruct (rstrip_chars_split (lstrip_chars l)) as [post [Hr Hpost]].
  exists pre, post. unfold strip_chars. repeat split; try assumption.
  now rewrite <- Hr.
Qed.

Lemma strip_chars_head (l : list ascii) c l' :
  strip_chars l = c :: l' -> isspace c = false.
Proof.
  unfold strip_chars. intros H.
  destruct (rstrip_chars_head _ H) as [l'' Hl].
  eapply lstrip_chars_head; exact Hl.
Qed.

Lemma strip_chars_last (l m : list ascii) c :
  strip_chars l = (m ++ [c])%list -> isspace c = false.
Proof. unfold strip_chars. apply rstrip_chars_last. Qed.

(** A text with no space at either end is what stripping leaves of it,
    whatever spaces surround it. *)
Lemma strip_chars_unique (pre t post : list ascii) :
  spaces pre -> spaces post ->
  (forall c t', t = c :: t' -> isspace c = false) ->
  (forall c t', t = (t' ++ [c])%list -> isspace c = false) ->
  strip_chars (pre ++ t ++ post) = t.
Proof.
  intros Hpre Hpost Hhead Hlast. unfold strip_chars.
  rewrite lstrip_chars_skip by assumption.
  destruct t as [|c t'].
  - simpl. now rewrite lstrip_chars_all_space.
  - simpl app. rewrite lstrip_chars_fixed by (eapply Hhead; reflexivity).
    change (c :: (t' ++ post)%list) with (((c :: t') ++ post)%list).
    rewrite rstrip_chars_skip by assumption.
    destruct (exists_last (l := c :: t')) as [m [z Hm]]; [discriminate|].
    rewrite Hm. apply rstrip_chars_fixed. eapply Hlast. exact Hm.
Qed.

Lemma strip_chars_idempotent (l : list ascii) :
  strip_chars (strip_chars l) = strip_chars l.
Proof.
  rewrite <- (app_nil_r (strip_chars l)) at 1.
  change (strip_chars l ++ [])%list with ([] ++ strip_chars l ++ [])%list.
  apply strip_chars_unique; try (unfold spaces; constructor).
  - intros c t' H. eapply strip_chars_head; exact H.
  - intros c t' H. eapply strip_chars_last; exact H.
Qed.

End StripFacts.

Lemma list_ascii_of_string_app (a b : string) :
  list_ascii_of_string (a ++ b)
  = (list_ascii_of_string a ++ list_ascii_of_string b)%list.
Proof. induction a as [|c a IH]; simpl; [reflexivity | now rewrite IH]. Qed.

Lemma string_of_list_ascii_app (a b : list ascii) :
  string_of_list_ascii (a ++ b)
  = string_of_list_ascii a ++ string_of_list_ascii b.
Proof. induction a as [|c a IH]; simpl; [reflexivity | now rewrite IH]. Qed.

Lemma strip_whitespace_removed (s : string) :
  Str.whitespace_removed s (Str.strip s).
Proof.
  destruct (strip_chars_split (list_ascii_of_string s))
    as [pre [post [Heq [Hpre Hpost]]]].
  exists (string_of_list_ascii pre), (string_of_list_ascii post).
  unfold Str.all_space, Str.no_leading_space, Str.no_trailing_space, Str.strip.
  rewrite !list_ascii_of_string_of_list_ascii.
  repeat split; try assumption.
  - rewrite <- (string_of_list_ascii_of_string s) at 1.
    rewrite Heq at 1. now rewrite !string_of_list_ascii_app.
  - intros c s' H. apply (f_equal list_ascii_of_string) in H.
    rewrite list_ascii_of_string_of_list_ascii in H. simpl in H.
    eapply strip_chars_head; exact H.
  - intros c s' H. apply (f_equal list_ascii_of_string) in H.
    rewrite list_ascii_of_string_of_list_ascii, list_ascii_of_string_app in H.
    simpl in H. eapply strip_chars_last; exact H.
Qed.

Lemma whitespace_removed_unique (content t : string) :
  Str.whitespace_removed content t -> t = Str.strip content.
Proof.
  intros [pre [post [Heq [Hpre [Hpost [Hhead Hlast]]]]]].
  unfold Str.strip. subst content.
  rewrite !list_ascii_of_string_app.
  rewrite strip_chars_unique; try assumption.
  - symmetry. apply string_of_list_ascii_of_string.
  - intros c t' H. apply (Hhead c (string_of_list_ascii t')).
    rewrite <- (string_of_list_ascii_of_string t), H. reflexivity.
  - intros c t' H. apply (Hlast c (string_of_list_ascii t')).
    rewrite <- (string_of_list_ascii_of_string t), H.
    now rewrite string_of_list_ascii_app.
Qed.

Lemma strip_idempotent (s : string) : Str.strip (Str.strip s) = Str.strip s.
Proof.
  unfold Str.strip. rewrite list_ascii_of_string_of_list_ascii.
  now rewrite strip_chars_idempotent.
Qed.

(** ** Generators *)

Section GenFacts.

Context {X Y : Type}.

Lemma bind_ret_tt (m : gen Y unit) : (_ <- m ;; ret tt) = m.
Proof.
  destruct m as [ys [e|[]]]; simpl; [reflexivity|].
  now rewrite app_nil_r.
Qed.

Lemma bind_assoc {A B C} (m : gen Y A) (k : A -> gen Y B) (h : B -> gen Y C) :
  (b <- (a <- m ;; k a) ;; h b) = (a <- m ;; b <- k a ;; h b).
Proof.
  destruct m as [ys [e|a]]; simpl; [reflexivity|].
  destruct (k a) as [zs [e|b]]; simpl; [reflexivity|].
  destruct (h b) as [ws r]. now rewrite app_assoc.
Qed.

Lemma for_app (xs xs' : list X) (body : X -> gen Y unit) :
  for_ (xs ++ xs') body = (_ <- for_ xs body ;; for_ xs' body).
Proof.
  induction xs as [|x xs IH]; simpl.
  - now destruct (for_ xs' body).
  - rewrite IH. symmetry. apply bind_assoc.
Qed.

Lemma for_ext (xs : list X) (body body' : X -> gen Y unit) :
  (forall x, In x xs -> body x = body' x) -> for_ xs body = for_ xs body'.
Proof.
  induction xs as [|x xs IH]; intros H; simpl; [reflexivity|].
  rewrite (H x (or_introl eq_refl)), IH; [reflexivity|].
  intros x' Hx'. apply H. now right.
Qed.

End GenFacts.

Section CollectFacts.

Context {X Y : Type}.

(** A loop whose body makes one fallible step and yields its value runs
    the steps as [collect] does. *)
Lemma for_collect (xs : list X) (step : X -> exn + Y) :
  for_ xs (fun x => y <- call (step x) ;; yield y) = collect (map step xs).
Proof.
  unfold collect. induction xs as [|x xs IH]; cbn [for_ map]; [reflexivity|].
  now rewrite IH.
Qed.

Lemma collect_app (os os' : list (exn + Y)) :
  collect (os ++ os') = (_ <- collect os ;; collect os').
Proof. apply for_app. Qed.

Lemma collect_cons_inr (y : Y) (os : list (exn + Y)) :
  collect (inr y :: os) = (y :: fst (collect os), snd (collect os)).
Proof.
  unfold collect. simpl. now destruct (for_ os _).
Qed.

Lemma collect_cons_inl (e : exn) (os : list (exn + Y)) :
  collect (inl e :: os) = ([], inl e).
Proof. reflexivity. Qed.

Lemma collect_all (ys : list Y) : collect (map inr ys) = (ys, inr tt).
Proof.
  induction ys as [|y ys IH]; [reflexivity|].
  simpl map. now rewrite collect_cons_inr, IH.
Qed.

Lemma collect_stop (ys : list Y) (e : exn) (rest : list (exn + Y)) :
  collect (map inr ys ++ inl e :: rest) = (ys, inl e).
Proof.
  rewrite collect_app, collect_all, collect_cons_inl. simpl.
  now rewrite app_nil_r.
Qed.

(** The [i]-th value yielded is the [i]-th outcome. *)
Lemma collect_nth (os : list (exn + Y)) (i : nat) (y : Y) :
  nth_error (yielded (collect os)) i = Some y ->
  nth_error os i = Some (inr y).
Proof.
  revert i. induction os as [|[e|y'] os IH]; intros i.
  - destruct i; discriminate.
  - rewrite collect_cons_inl. destruct i; discriminate.
  - rewrite collect_cons_inr. destruct i as [|i]; simpl.
    + now intros [= ->].
    + apply IH.
Qed.

(** The values yielded are as many as the outcomes before the first
    error. *)
Lemma collect_length (os : list (exn + Y)) :
  length (yielded (collect os)) <= length os.
Proof.
  induction os as [|[e|y] os IH]; simpl; [lia | lia |].
  rewrite collect_cons_inr. simpl. unfold yielded in IH. lia.
Qed.

End CollectFacts.

Lemma collect_map {Y Z} (f : Y -> Z) (os : list (exn + Y)) :
  collect (map (map_inr f) os) = map_gen f (collect os).
Proof.
  induction os as [|[e|y] os IH]; try reflexivity.
  cbn [map map_inr]. rewrite !collect_cons_inr. rewrite IH. reflexivity.
Qed.

Lemma for_yield {Y Z} (ys : list Y) (f : Y -> Z) :
  for_ ys (fun y => yield (f y)) = (map f ys, inr tt).
Proof.
  induction ys as [|y ys IH]; cbn [for_ map]; [reflexivity|].
  now rewrite IH.
Qed.

Lemma for_gen_yield {Y Z} (g : generator Y) (f : Y -> Z) :
  for_gen g (fun y => yield (f y)) = map_gen f g.
Proof.
  destruct g as [ys r]. unfold for_gen, map_gen. cbn [fst snd].
  rewrite for_yield. unfold bind, call. now rewrite app_nil_r.
Qed.

Lemma bind_call_inr {Y A B} (a : A) (k : A -> gen Y B) :
  (x <- call (inr a) ;; k x) = k a.
Proof. unfold bind, call. now destruct (k a). Qed.

Lemma bind_call_inl {Y A B} (e : exn) (k : A -> gen Y B) :
  (x <- call (inl e) ;; k x) = ([], inl e).
Proof. reflexivity. Qed.

Lemma map_gen_bind {X Y A B} (f : X -> Y) (m : gen X A) (k : A -> gen X B) :
  map_gen f (a <- m ;; k a) = (a <- map_gen f m ;; map_gen f (k a)).
Proof.
  destruct m as [xs [e|a]]; [reflexivity|].
  unfold map_gen. simpl. destruct (k a) as [zs r]. simpl.
  now rewrite map_app.
Qed.

(** ** The example generator, step by step *)

Section GenerateExamples.

Variable stored_record : Type.
Variable encode_example : IMDBReviews -> example_dict -> stored_record.
Variable self : IMDBReviews.
Variable fs : FileSystem.

(** The body of the inner loop is one attempt on the file. *)
Lemma file_body (d label filename : string) :
  (imdb_f <- call (Open fs (os_path.join d [filename])) ;;
   content <- call (read imdb_f) ;;
   yield (encode_example self
            {| text := Str.strip content; label := label |}))
  = (y <- call (map_inr (encode_example self) (attempt fs d label filename)) ;;
     yield y).
Proof.
  unfold attempt, read_text.
  destruct (Open fs (os_path.join d [filename])) as [e|imdb_f]; [reflexivity|].
  simpl. now destruct (read imdb_f).
Qed.

Lemma file_loop (d label : string) (filenames : list string) :
  for_ filenames (fun filename =>
    imdb_f <- call (Open fs (os_path.join d [filename])) ;;
    content <- call (read imdb_f) ;;
    yield (encode_example self
             {| text := Str.strip content; label := label |}))
  = map_gen (encode_example self)
      (collect (map (attempt fs d label) filenames)).
Proof.
  rewrite <- collect_map, map_map.
  rewrite <- (for_collect filenames
                (fun filename =>
                   map_inr (encode_example self) (attempt fs d label filename))).
  apply for_ext. intros filename _. apply file_body.
Qed.

(** The generator runs the plan of the directory and encodes what it
    yields. *)
Lemma generate_examples_plan (directory : string) :
  _generate_examples encode_example self fs directory
  = map_gen (encode_example self) (collect (plan fs directory)).
Proof.
  unfold _generate_examples, plan. cbn [for_].
  destruct (ListDirectory fs (os_path.join directory ["pos"]))
    as [e|pos_files]; [reflexivity|].
  rewrite collect_app, map_gen_bind, bind_call_inr, file_loop.
  destruct (map_gen (encode_example self)
              (collect (map (attempt fs (os_path.join directory ["pos"]) "pos")
                            pos_files))) as [ys [e|[]]]; [reflexivity|].
  destruct (ListDirectory fs (os_path.join directory ["neg"]))
    as [e|neg_files].
  - reflexivity.
  - rewrite bind_call_inr, file_loop, bind_ret_tt. reflexivity.
Qed.

End GenerateExamples.

(** ** The plan of a directory *)

Section PlanFacts.

Variable fs : FileSystem.

Lemma plan_listed (directory : string) (pos_files neg_files : list string) :
  ListDirectory fs (os_path.join directory ["pos"]) = inr pos_files ->
  ListDirectory fs (os_path.join directory ["neg"]) = inr neg_files ->
  plan fs directory
  = (map (attempt fs (os_path.join directory ["pos"]) "pos") pos_files ++
     map (attempt fs (os_path.join directory ["neg"]) "neg") neg_files)%list.
Proof. intros Hp Hn. unfold plan. now rewrite Hp, Hn. Qed.

Lemma sources_listed (directory : string) (pos_files neg_files : list string) :
  ListDirectory fs (os_path.join directory ["pos"]) = inr pos_files ->
  ListDirectory fs (os_path.join directory ["neg"]) = inr neg_files ->
  sources fs directory
  = (map (fun f => (os_path.join directory ["pos"], "pos", f)) pos_files ++
     map (fun f => (os_path.join directory ["neg"], "neg", f)) neg_files)%list.
Proof. intros Hp Hn. unfold sources, listing. now rewrite Hp, Hn. Qed.

Lemma sources_labels (directory : string) (d lbl f : string) :
  In (d, lbl, f) (sources fs directory) ->
  (d = os_path.join directory ["pos"] /\ lbl = "pos")
  \/ (d = os_path.join directory ["neg"] /\ lbl = "neg").
Proof.
  unfold sources.
  destruct (ListDirectory fs (os_path.join directory ["pos"])); [intros []|].
  rewrite in_app_iff, !in_map_iff.
  intros [[x [[= <- <- <-] _]]|[x [[= <- <- <-] _]]]; auto.
Qed.

(** The plan is one attempt per source, then at most the error of a
    listing. *)
Lemma plan_sources (directory : string) :
  exists tail,
    plan fs directory
    = (map (attempt_source fs) (sources fs directory) ++ tail)%list
    /\ (tail = [] \/ exists e, tail = [inl e]).
Proof.
  unfold plan, sources, listing.
  destruct (ListDirectory fs (os_path.join directory ["pos"]))
    as [e|pos_files].
  - exists [inl e]. split; [reflexivity | right; eauto].
  - destruct (ListDirectory fs (os_path.join directory ["neg"]))
      as [e|neg_files].
    + exists [inl e]. split; [|right; eauto].
      simpl. now rewrite app_nil_r, map_map.
    + exists []. split; [|now left].
      now rewrite app_nil_r, map_app, !map_map.
Qed.

(** An outcome of the plan that is an example is the attempt on the file
    at the same place of [sources]. *)
Lemma plan_nth (directory : string) (i : nat) (ex : example_dict) :
  nth_error (plan fs directory) i = Some (inr ex) ->
  exists d lbl filename,
    nth_error (sources fs directory) i = Some (d, lbl, filename)
    /\ attempt fs d lbl filename = inr ex.
Proof.
  destruct (plan_sources directory) as [tail [-> Htail]].
  rewrite nth_error_app, length_map.
  destruct (Nat.ltb_spec i (length (sources fs directory))) as [Hi|Hi].
  - rewrite nth_error_map.
    destruct (nth_error (sources fs directory) i) as [[[d lbl] f]|];
      [|discriminate].
    simpl. intros [= H]. eauto.
  - destruct Htail as [->|[e ->]].
    + now rewrite nth_error_nil.
    + destruct (i - length (sources fs directory)) as [|[|j]]; discriminate.
Qed.

(** The attempts on readable files all give an example, with the label
    of the directory and the stripped content of the file. *)
Lemma attempts_readable (d lbl : string) (filenames : list string) :
  (forall f, In f filenames -> readable fs (os_path.join d [f]) = true) ->
  exists exs,
    map (attempt fs d lbl) filenames = map inr exs
    /\ length exs = length filenames
    /\ Forall (fun ex => label ex = lbl) exs.
Proof.
  induction filenames as [|f fl IH]; intros H.
  - exists []. repeat split. constructor.
  - destruct IH as [exs [Hm [Hl Hf]]].
    { intros f' Hf'. apply H. now right. }
    specialize (H f (or_introl eq_refl)). unfold readable in H.
    destruct (read_text fs (os_path.join d [f])) as [e|content] eqn:Hr;
      [discriminate|].
    exists ({| text := Str.strip content; label := lbl |} :: exs).
    simpl. unfold attempt at 1. rewrite Hr, Hm, Hl.
    repeat split. constructor; [reflexivity | assumption].
Qed.

End PlanFacts.

(** ** The example generator *)

(** C1. Over a directory whose "pos" listing gives N files and whose
    "neg" listing gives M files, each of which can be opened and read,
    [_generate_examples] returns normally after yielding exactly N+M
    examples (each the encoding of a dictionary): the first N carry the
    label "pos" and the remaining M the label "neg", and the example at
    place [i] is built from the file at place [i] of the two listings
    taken in order. *)
Theorem generate_examples_count_and_labels
  (stored_record : Type)
  (encode_example : IMDBReviews -> example_dict -> stored_record)
  (self : IMDBReviews) (fs : FileSystem) (directory : string)
  (pos_files neg_files : list string) :
  ListDirectory fs (os_path.join directory ["pos"]) = inr pos_files ->
  ListDirectory fs (os_path.join directory ["neg"]) = inr neg_files ->
  (forall f, In f pos_files ->
     readable fs (os_path.join (os_path.join directory ["pos"]) [f]) = true) ->
  (forall f, In f neg_files ->
     readable fs (os_path.join (os_path.join directory ["neg"]) [f]) = true) ->
  exists exs : list example_dict,
    _generate_examples encode_example self fs directory
    = (map (encode_example self) exs, inr tt)
    /\ length exs = length pos_files + length neg_files
    /\ Forall (fun ex => label ex = "pos") (firstn (length pos_files) exs)
    /\ Forall (fun ex => label ex = "neg") (skipn (length pos_files) exs)
    /\ (forall i ex, nth_error exs i = Some ex ->
        exists d lbl filename,
          nth_error (sources fs directory) i = Some (d, lbl, filename)
          /\ attempt fs d lbl filename = inr ex).
Proof.
  intros Hp Hn Rp Rn.
  destruct (attempts_readable fs _ "pos" pos_files Rp) as [ps [Hps [Lp Fp]]].
  destruct (attempts_readable fs _ "neg" neg_files Rn) as [ns [Hns [Ln Fn]]].
  assert (Hplan : plan fs directory = map inr (ps ++ ns)%list).
  { rewrite (plan_listed fs directory Hp Hn), Hps, Hns. now rewrite map_app. }
  exists (ps ++ ns)%list. repeat split.
  - now rewrite generate_examples_plan, Hplan, collect_all.
  - rewrite length_app. lia.
  - rewrite <- Lp, firstn_app, firstn_all, Nat.sub_diag. simpl.
    now rewrite app_nil_r.
  - rewrite <- Lp, skipn_app, skipn_all, Nat.sub_diag. exact Fn.
  - intros i ex Hi. apply plan_nth. rewrite Hplan, nth_error_map, Hi.
    reflexivity.
Qed.

Lemma generate_examples_count_and_labels_witness :
  ListDirectory corpus_fs (os_path.join "train" ["pos"])
    = inr ["0_9.txt"; "1_7.txt"]
  /\ ListDirectory corpus_fs (os_path.join "train" ["neg"]) = inr ["0_3.txt"]
  /\ exists exs : list example_dict,
       _generate_examples store_as_is (builder_of plain_text_config)
         corpus_fs "train"
       = (map (store_as_is (builder_of plain_text_config)) exs, inr tt)
       /\ length exs = 2 + 1
       /\ Forall (fun ex => label ex = "pos") (firstn 2 exs)
       /\ Forall (fun ex => label ex = "neg") (skipn 2 exs)
       /\ (forall i ex, nth_error exs i = Some ex ->
           exists d lbl filename,
             nth_error (sources corpus_fs "train") i = Some (d, lbl, filename)
             /\ attempt corpus_fs d lbl filename = inr ex).
Proof.
  split; [reflexivity|]. split; [reflexivity|].
  apply (@generate_examples_count_and_labels example_dict store_as_is
           (builder_of plain_text_config) corpus_fs "train"
           ["0_9.txt"; "1_7.txt"] ["0_3.txt"]).
  - reflexivity.
  - reflexivity.
  - intros f [<-|[<-|[]]]; reflexivity.
  - intros f [<-|[]]; reflexivity.
Defined.

Example generate_examples_corpus :
  _generate_examples store_as_is (builder_of plain_text_config) corpus_fs "train"
  = ([ {| text := "Loved it."; label := "pos" |};
       {| text := "A fine film"; label := "pos" |};
       {| text := "Dull."; label := "neg" |} ], inr tt).
Proof. reflexivity. Qed.

Lemma yielded_map_gen {X Y A} (f : X -> Y) (g : gen X A) :
  yielded (map_gen f g) = map f (yielded g).
Proof. reflexivity. Qed.

Lemma raised_map_gen {X Y A} (f : X -> Y) (g : gen X A) :
  raised (map_gen f g) = raised g.
Proof. reflexivity. Qed.

(** The example at place [i] comes from the file at place [i]. *)
Lemma generate_examples_nth
  (stored_record : Type)
  (encode_example : IMDBReviews -> example_dict -> stored_record)
  (self : IMDBReviews) (fs : FileSystem) (directory : string)
  (i : nat) (y : stored_record) :
  nth_error (yielded (_generate_examples encode_example self fs directory)) i
    = Some y ->
  exists d lbl filename content,
    nth_error (sources fs directory) i = Some (d, lbl, filename)
    /\ read_text fs (os_path.join d [filename]) = inr content
    /\ y = encode_example self {| text := Str.strip content; label := lbl |}.
Proof.
  rewrite generate_examples_plan, yielded_map_gen, nth_error_map.
  destruct (nth_error (yielded (collect (plan fs directory))) i) as [ex|] eqn:Hi;
    [|discriminate].
  intros [= <-]. apply collect_nth, plan_nth in Hi.
  destruct Hi as [d [lbl [filename [Hs Ha]]]].
  unfold attempt in Ha.
  destruct (read_text fs (os_path.join d [filename])) as [e|content] eqn:Hr;
    [discriminate|].
  injection Ha as <-. exists d, lbl, filename, content. auto.
Qed.

(** C2. The text of every example yielded is the whole content of the
    file it comes from with the leading and trailing whitespace removed
    and nothing else changed: the content is that text between two runs
    of whitespace, the text has no whitespace at either end, and it is
    the only such text; stripping a stripped text leaves it as it is. *)
Theorem generate_examples_text_stripped
  (stored_record : Type)
  (encode_example : IMDBReviews -> example_dict -> stored_record)
  (self : IMDBReviews) (fs : FileSystem) (directory : string)
  (i : nat) (y : stored_record) :
  nth_error (yielded (_generate_examples encode_example self fs directory)) i
    = Some y ->
  exists d lbl filename content,
    nth_error (sources fs directory) i = Some (d, lbl, filename)
    /\ read_text fs (os_path.join d [filename]) = inr content
    /\ y = encode_example self {| text := Str.strip content; label := lbl |}
    /\ Str.whitespace_removed content (Str.strip content)
    /\ (forall t, Str.whitespace_removed content t -> t = Str.strip content)
    /\ Str.strip (Str.strip content) = Str.strip content.
Proof.
  intros H. apply generate_examples_nth in H.
  destruct H as [d [lbl [filename [content [Hs [Hr Hy]]]]]].
  exists d, lbl, filename, content. repeat split; try assumption.
  - apply strip_whitespace_removed.
  - intros t. apply whitespace_removed_unique.
  - apply strip_idempotent.
Qed.

Lemma generate_examples_text_stripped_witness :
  nth_error
    (yielded (_generate_examples store_as_is (builder_of plain_text_config)
                corpus_fs "train")) 2
  = Some {| text := "Dull."; label := "neg" |}
  /\ exists d lbl filename content,
       nth_error (sources corpus_fs "train") 2 = Some (d, lbl, filename)
       /\ read_text corpus_fs (os_path.join d [filename]) = inr content
       /\ {| text := "Dull."; label := "neg" |}
          = store_as_is (builder_of plain_text_config)
              {| text := Str.strip content; label := lbl |}
       /\ Str.whitespace_removed content (Str.strip content)
       /\ (forall t, Str.whitespace_removed content t -> t = Str.strip content)
       /\ Str.strip (Str.strip content) = Str.strip content.
Proof.
  split; [reflexivity|].
  apply (@generate_examples_text_stripped example_dict store_as_is
           (builder_of plain_text_config) corpus_fs "train" 2).
  reflexivity.
Defined.

(** C7. When "train/pos" lists one file whose content is "Great movie!"
    followed by a line feed and "train/neg" lists none, generating over
    "train" yields exactly one example, the encoding of the text
    "Great movie!" with the label "pos", and returns. *)
Theorem generate_examples_great_movie
  (stored_record : Type)
  (encode_example : IMDBReviews -> example_dict -> stored_record)
  (self : IMDBReviews) (fs : FileSystem) (filename : string) :
  ListDirectory fs "train/pos" = inr [filename] ->
  ListDirectory fs "train/neg" = inr [] ->
  read_text fs (os_path.join "train/pos" [filename])
    = inr ("Great movie!" ++ LF) ->
  _generate_examples encode_example self fs "train"
  = ([encode_example self {| text := "Great movie!"; label := "pos" |}],
     inr tt).
Proof.
  intros Hp Hn Hr.
  rewrite generate_examples_plan.
  assert (Hplan : plan fs "train"
                  = [inr {| text := "Great movie!"; label := "pos" |}]).
  { unfold plan.
    change (os_path.join "train" ["pos"]) with "train/pos".
    change (os_path.join "train" ["neg"]) with "train/neg".
    rewrite Hp, Hn. simpl. unfold attempt. now rewrite Hr. }
  now rewrite Hplan.
Qed.

Lemma generate_examples_great_movie_witness :
  ListDirectory great_movie_fs "train/pos" = inr ["0_10.txt"]
  /\ ListDirectory great_movie_fs "train/neg" = inr []
  /\ read_text great_movie_fs "train/pos/0_10.txt" = inr ("Great movie!" ++ LF)
  /\ _generate_examples store_as_is (builder_of plain_text_config)
       great_movie_fs "train"
     = ([ {| text := "Great movie!"; label := "pos" |} ], inr tt).
Proof.
  split; [reflexivity|]. split; [reflexivity|]. split; [reflexivity|].
  apply (@generate_examples_great_movie example_dict store_as_is
           (builder_of plain_text_config) great_movie_fs "0_10.txt");
    reflexivity.
Defined.

(** C3. Over every directory, [_vocab_text_gen] yields the "text" item of
    each record [_generate_examples] yields, one for one and in the same
    order, and ends as it ends. *)
Theorem vocab_text_gen_projection
  (stored_record item : Type)
  (encode_example : IMDBReviews -> example_dict -> stored_record)
  (getitem : stored_record -> string -> item)
  (self : IMDBReviews) (fs : FileSystem) (train_dir : string) :
  yielded (_vocab_text_gen encode_example getitem self fs train_dir)
  = map (fun ex => getitem ex "text")
      (yielded (_generate_examples encode_example self fs train_dir))
  /\ raised (_vocab_text_gen encode_example getitem self fs train_dir)
     = raised (_generate_examples encode_example self fs train_dir).
Proof.
  unfold _vocab_text_gen. rewrite for_gen_yield. split; reflexivity.
Qed.

Example vocab_text_gen_corpus :
  _vocab_text_gen store_as_is field (builder_of plain_text_config)
    corpus_fs "train"
  = (["Loved it."; "A fine film"; "Dull."], inr tt).
Proof. reflexivity. Qed.

Example vocab_text_gen_broken :
  _vocab_text_gen store_as_is field (builder_of plain_text_config)
    broken_fs "train"
  = (["Loved it."], inl (PermissionDeniedError "train/pos/1_7.txt")).
Proof. reflexivity. Qed.

(** ** Labels *)

Lemma outcome_label_attempt (fs : FileSystem) (d lbl f : string) :
  outcome_label (attempt fs d lbl f)
  = if readable fs (os_path.join d [f]) then Some lbl else None.
Proof.
  unfold attempt, readable.
  now destruct (read_text fs (os_path.join d [f])).
Qed.

(** The labels a run yields depend on its outcomes through their labels
    alone. *)
Lemma collect_labels (os os' : list (exn + example_dict)) :
  map outcome_label os = map outcome_label os' ->
  map label (yielded (collect os)) = map label (yielded (collect os')).
Proof.
  revert os'. induction os as [|[e|ex] os IH]; intros [|[e'|ex'] os'];
    try discriminate; try reflexivity.
  simpl map at 1 2. intros [= Hl Hrest].
  rewrite !collect_cons_inr. unfold yielded in *. simpl.
  now rewrite Hl, (IH os' Hrest).
Qed.

Lemma plan_labels (fs fs' : FileSystem) (directory : string) :
  ListDirectory fs (os_path.join directory ["pos"])
    = ListDirectory fs' (os_path.join directory ["pos"]) ->
  ListDirectory fs (os_path.join directory ["neg"])
    = ListDirectory fs' (os_path.join directory ["neg"]) ->
  (forall d lbl f, In (d, lbl, f) (sources fs directory) ->
     readable fs (os_path.join d [f]) = readable fs' (os_path.join d [f])) ->
  map outcome_label (plan fs directory) = map outcome_label (plan fs' directory).
Proof.
  unfold plan, sources, listing. intros <- <-.
  destruct (ListDirectory fs (os_path.join directory ["pos"]))
    as [e|pos_files]; [reflexivity|].
  intros H. rewrite !map_app, !map_map. f_equal.
  - apply map_ext_in. intros f Hf. rewrite !outcome_label_attempt.
    rewrite (H _ "pos" f); [reflexivity|].
    apply in_or_app. left. apply in_map_iff. eauto.
  - destruct (ListDirectory fs (os_path.join directory ["neg"]))
      as [e|neg_files]; [reflexivity|].
    rewrite !map_map. apply map_ext_in. intros f Hf.
    rewrite !outcome_label_attempt.
    rewrite (H _ "neg" f); [reflexivity|].
    apply in_or_app. right. apply in_map_iff. eauto.
Qed.

(** C6. The label of every example yielded is that of the subdirectory
    its file is listed in: "pos" for a file of the "pos" listing, "neg"
    for a file of the "neg" listing, and nothing else; and the labels of
    a run stay the same under any change of the file contents that
    leaves the listings and the readability of the files as they are. *)
Theorem label_from_subdirectory
  (stored_record : Type)
  (encode_example : IMDBReviews -> example_dict -> stored_record)
  (self : IMDBReviews) (fs : FileSystem) (directory : string) :
  (forall i y,
     nth_error (yielded (_generate_examples encode_example self fs directory)) i
       = Some y ->
     exists d lbl filename content,
       nth_error (sources fs directory) i = Some (d, lbl, filename)
       /\ read_text fs (os_path.join d [filename]) = inr content
       /\ y = encode_example self {| text := Str.strip content; label := lbl |}
       /\ ((d = os_path.join directory ["pos"] /\ lbl = "pos")
           \/ (d = os_path.join directory ["neg"] /\ lbl = "neg")))
  /\ (forall fs' : FileSystem,
        ListDirectory fs (os_path.join directory ["pos"])
          = ListDirectory fs' (os_path.join directory ["pos"]) ->
        ListDirectory fs (os_path.join directory ["neg"])
          = ListDirectory fs' (os_path.join directory ["neg"]) ->
        (forall d lbl f, In (d, lbl, f) (sources fs directory) ->
           readable fs (os_path.join d [f])
           = readable fs' (os_path.join d [f])) ->
        map label
          (yielded (_generate_examples (fun _ ex => ex) self fs directory))
        = map label
            (yielded (_generate_examples (fun _ ex => ex) self fs' directory))).
Proof.
  split.
  - intros i y H. apply generate_examples_nth in H.
    destruct H as [d [lbl [filename [content [Hs [Hr Hy]]]]]].
    exists d, lbl, filename, content. repeat split; try assumption.
    apply (sources_labels fs directory d lbl filename).
    eapply nth_error_In; exact Hs.
  - intros fs' Hp Hn Hr.
    rewrite !generate_examples_plan, !yielded_map_gen, !map_id.
    apply collect_labels, plan_labels; assumption.
Qed.

Lemma label_from_subdirectory_witness :
  (exists d lbl filename content,
     nth_error (sources corpus_fs "train") 1 = Some (d, lbl, filename)
     /\ read_text corpus_fs (os_path.join d [filename]) = inr content
     /\ {| text := "A fine film"; label := "pos" |}
        = store_as_is (builder_of plain_text_config)
            {| text := Str.strip content; label := lbl |}
     /\ ((d = os_path.join "train" ["pos"] /\ lbl = "pos")
         \/ (d = os_path.join "train" ["neg"] /\ lbl = "neg")))
  /\ map label
       (yielded (_generate_examples (fun _ ex => ex)
                   (builder_of plain_text_config) corpus_fs "train"))
     = map label
         (yielded (_generate_examples (fun _ ex => ex)
                     (builder_of plain_text_config) corpus_fs' "train")).
Proof.
  pose proof (@label_from_subdirectory example_dict store_as_is
                (builder_of plain_text_config) corpus_fs "train") as [H1 H2].
  split.
  - apply (H1 1). reflexivity.
  - apply (H2 corpus_fs'); try reflexivity.
    intros d lbl f [[= <- <- <-]|[[= <- <- <-]|[[= <- <- <-]|[]]]]; reflexivity.
Defined.

Example labels_ignore_contents :
  yielded (_generate_examples store_as_is (builder_of plain_text_config)
             corpus_fs' "train")
  = [ {| text := "terrible, awful"; label := "pos" |};
      {| text := "neg"; label := "pos" |};
      {| text := "pos"; label := "neg" |} ].
Proof. reflexivity. Qed.

(** ** Determinism *)

(** C9. Two runs over a directory, in two states of the file system that
    give the same results for the two listings and for opening and
    reading each listed file, produce the same sequence of examples and
    end alike. *)
Theorem generate_examples_deterministic
  (stored_record : Type)
  (encode_example : IMDBReviews -> example_dict -> stored_record)
  (self : IMDBReviews) (fs fs' : FileSystem) (directory : string) :
  ListDirectory fs (os_path.join directory ["pos"])
    = ListDirectory fs' (os_path.join directory ["pos"]) ->
  ListDirectory fs (os_path.join directory ["neg"])
    = ListDirectory fs' (os_path.join directory ["neg"]) ->
  (forall d lbl f, In (d, lbl, f) (sources fs directory) ->
     read_text fs (os_path.join d [f]) = read_text fs' (os_path.join d [f])) ->
  _generate_examples encode_example self fs directory
  = _generate_examples encode_example self fs' directory.
Proof.
  intros Hp Hn Hr. rewrite !generate_examples_plan. f_equal. f_equal.
  revert Hr. unfold plan, sources, listing. rewrite <- Hp, <- Hn.
  destruct (ListDirectory fs (os_path.join directory ["pos"]))
    as [e|pos_files]; [reflexivity|].
  intros Hr. f_equal.
  - apply map_ext_in. intros f Hf. unfold attempt.
    rewrite (Hr _ "pos" f); [reflexivity|].
    apply in_or_app. left. apply in_map_iff. eauto.
  - destruct (ListDirectory fs (os_path.join directory ["neg"]))
      as [e|neg_files]; [reflexivity|].
    apply map_ext_in. intros f Hf. unfold attempt.
    rewrite (Hr _ "neg" f); [reflexivity|].
    apply in_or_app. right. apply in_map_iff. eauto.
Qed.

Lemma generate_examples_deterministic_witness :
  Open corpus_fs "test/pos/5_8.txt" <> Open corpus_fs_more "test/pos/5_8.txt"
  /\ _generate_examples store_as_is (builder_of plain_text_config)
       corpus_fs "train"
     = _generate_examples store_as_is (builder_of plain_text_config)
         corpus_fs_more "train".
Proof.
  split; [discriminate|].
  apply (@generate_examples_deterministic example_dict store_as_is
           (builder_of plain_text_config) corpus_fs corpus_fs_more "train");
    try reflexivity.
  intros d lbl f [[= <- <- <-]|[[= <- <- <-]|[[= <- <- <-]|[]]]]; reflexivity.
Defined.

(** ** Failure *)

(** The first element of a list that fails a test. *)
Lemma first_failing {A} (p : A -> bool) (l : list A) :
  (exists x, In x l /\ p x = false) ->
  exists before x after,
    l = (before ++ x :: after)%list
    /\ Forall (fun b => p b = true) before
    /\ p x = false.
Proof.
  induction l as [|a l IH]; intros [x [Hin Hx]]; [destruct Hin|].
  destruct (p a) eqn:Ha.
  - destruct IH as [before [x' [after [-> [Hb Hx']]]]].
    { destruct Hin as [->|Hin]; [congruence | eauto]. }
    exists (a :: before), x', after. repeat split; auto.
  - exists [], a, l. repeat split; auto.
Qed.

Lemma attempts_before (fs : FileSystem)
  (srcs : list (string * string * string)) :
  Forall (fun s => readable fs (os_path.join (fst (fst s)) [snd s]) = true)
    srcs ->
  exists exs,
    map (attempt_source fs) srcs = map inr exs
    /\ Forall2 (fun s ex => attempt_source fs s = inr ex) srcs exs.
Proof.
  induction 1 as [|[[d lbl] f] srcs Hr _ [exs [Hm Hf]]].
  - exists []. split; constructor.
  - unfold readable in Hr. cbn [fst snd] in Hr.
    destruct (read_text fs (os_path.join d [f])) as [e|content] eqn:Hc;
      [discriminate|].
    assert (Ha : attempt_source fs (d, lbl, f)
                 = inr {| text := Str.strip content; label := lbl |}).
    { simpl. unfold attempt. now rewrite Hc. }
    exists ({| text := Str.strip content; label := lbl |} :: exs).
    split.
    + simpl map. unfold attempt_source in Ha. now rewrite Ha, Hm.
    + constructor; assumption.
Qed.

(** C8. When one of the files a run gets to cannot be opened or read, the
    run raises the error of the first such file: it yields the examples
    of the files before that one, one for one, and nothing from that
    file or from any file after it. *)
Theorem generate_examples_aborts
  (stored_record : Type)
  (encode_example : IMDBReviews -> example_dict -> stored_record)
  (self : IMDBReviews) (fs : FileSystem) (directory : string) :
  (exists d lbl f,
     In (d, lbl, f) (sources fs directory)
     /\ readable fs (os_path.join d [f]) = false) ->
  exists before d lbl f after e exs,
    sources fs directory = (before ++ (d, lbl, f) :: after)%list
    /\ read_text fs (os_path.join d [f]) = inl e
    /\ Forall2 (fun s ex => attempt_source fs s = inr ex) before exs
    /\ _generate_examples encode_example self fs directory
       = (map (encode_example self) exs, inl e)
    /\ length (yielded (_generate_examples encode_example self fs directory))
       < length (sources fs directory).
Proof.
  intros [d0 [l0 [f0 [Hin Hun]]]].
  destruct (first_failing
              (fun s => readable fs (os_path.join (fst (fst s)) [snd s]))
              (sources fs directory))
    as [before [[[d lbl] f] [after [Hs [Hb Hx]]]]].
  { exists (d0, l0, f0). auto. }
  cbn [fst snd] in Hx. unfold readable in Hx.
  destruct (read_text fs (os_path.join d [f])) as [e|content] eqn:Hr;
    [|discriminate].
  destruct (attempts_before fs Hb) as [exs [Hm Hf]].
  assert (Hgen : _generate_examples encode_example self fs directory
                 = (map (encode_example self) exs, inl e)).
  { rewrite generate_examples_plan.
    destruct (plan_sources fs directory) as [tail [-> _]].
    rewrite Hs, map_app, Hm. simpl map.
    unfold attempt at 1. rewrite Hr, <- app_assoc. simpl app.
    now rewrite collect_stop. }
  exists before, d, lbl, f, after, e, exs. repeat split; try assumption.
  rewrite Hgen, Hs. unfold yielded. simpl.
  rewrite length_map, length_app, <- (Forall2_length Hf). simpl. lia.
Qed.

Lemma generate_examples_aborts_witness :
  (In ("train/pos", "pos", "1_7.txt") (sources broken_fs "train")
   /\ readable broken_fs (os_path.join "train/pos" ["1_7.txt"]) = false)
  /\ exists before d lbl f after e exs,
       sources broken_fs "train" = (before ++ (d, lbl, f) :: after)%list
       /\ read_text broken_fs (os_path.join d [f]) = inl e
       /\ Forall2 (fun s ex => attempt_source broken_fs s = inr ex) before exs
       /\ _generate_examples store_as_is (builder_of plain_text_config)
            broken_fs "train"
          = (map (store_as_is (builder_of plain_text_config)) exs, inl e)
       /\ length
            (yielded (_generate_examples store_as_is
                        (builder_of plain_text_config) broken_fs "train"))
          < length (sources broken_fs "train").
Proof.
  split.
  - split; [right; left; reflexivity | reflexivity].
  - apply (@generate_examples_aborts example_dict store_as_is
             (builder_of plain_text_config) broken_fs "train").
    exists "train/pos", "pos", "1_7.txt".
    split; [right; left; reflexivity | reflexivity].
Defined.

Example generate_examples_broken :
  _generate_examples store_as_is (builder_of plain_text_config)
    broken_fs "train"
  = ([ {| text := "Loved it."; label := "pos" |} ],
     inl (PermissionDeniedError "train/pos/1_7.txt")).
Proof. reflexivity. Qed.

(** ** Metadata *)

(** C10. Whatever the configuration of the builder, the label feature of
    the dataset metadata is the class label over the names "neg", "pos"
    in that order: "neg" is at index 0 and "pos" at index 1. *)
Theorem info_label_names (self : IMDBReviews) :
  label_feature (features (_info self)) = {| names := ["neg"; "pos"] |}
  /\ index_of "neg" (names (label_feature (features (_info self)))) = Some 0
  /\ index_of "pos" (names (label_feature (features (_info self)))) = Some 1
  /\ length (names (label_feature (features (_info self)))) = 2.
Proof. repeat split. Qed.

Example info_of_each_config :
  map (fun c => names (label_feature (features (_info (builder_of c)))))
    BUILDER_CONFIGS
  = [ ["neg"; "pos"]; ["neg"; "pos"]; ["neg"; "pos"]; ["neg"; "pos"] ].
Proof. reflexivity. Qed.

Example info_size : size_in_bytes (_info (builder_of plain_text_config)) = 89128960%N.
Proof. reflexivity. Qed.

(** ** Split setup *)

Example strategies_of_configs :
  map (fun c => (name c, strategy_of (text_encoder_config c))) BUILDER_CONFIGS
  = [ ("plain_text", RawText); ("bytes", ByteLevel);
      ("subwords8k", Subword (Some 8192%N));
      ("subwords32k", Subword (Some 32768%N)) ].
Proof. reflexivity. Qed.

Section SplitGenerators.

Variable stored_record : Type.
Variable item : Type.
Variable encode_example : IMDBReviews -> example_dict -> stored_record.
Variable getitem : stored_record -> string -> item.

(** What vocabulary building adds to the log. *)
Lemma maybe_build_from_corpus_log (feature : Text)
  (corpus_generator : generator item) (log : build_log item) :
  length (fst (maybe_build_from_corpus feature corpus_generator log))
  = length log + (if subword_based (encoder_config feature) then 1 else 0).
Proof.
  unfold maybe_build_from_corpus, subword_based.
  destruct (strategy_of (encoder_config feature)); simpl; try lia.
  rewrite length_app. simpl. lia.
Qed.

Lemma split_generators_log (self : IMDBReviews) (dl_manager : DownloadManager)
  (fs : FileSystem) (log : build_log item) (root : string) :
  download_and_extract dl_manager _DOWNLOAD_URL = inr root ->
  fst (_split_generators encode_example getitem self dl_manager fs log)
  = fst (maybe_build_from_corpus
           (text_feature (features (_info self)))
           (_vocab_text_gen encode_example getitem self fs
              (os_path.join root ["aclImdb"; "train"])) log).
Proof.
  intros Hd. unfold _split_generators. rewrite Hd.
  now destruct (maybe_build_from_corpus _ _ log) as [log' [e|u]].
Qed.

End SplitGenerators.

(** C5. In a dataset build whose archive is fetched and extracted, split
    setup invokes vocabulary building exactly once when the active
    configuration is "subwords8k" or "subwords32k", the two whose
    text-encoding strategy is subword-based, and not at all when it is
    "plain_text" or "bytes". *)
Theorem vocabulary_built_once_for_subwords
  (stored_record item : Type)
  (encode_example : IMDBReviews -> example_dict -> stored_record)
  (getitem : stored_record -> string -> item)
  (self : IMDBReviews) (dl_manager : DownloadManager) (fs : FileSystem)
  (root : string) :
  download_and_extract dl_manager _DOWNLOAD_URL = inr root ->
  In (_builder_config self) BUILDER_CONFIGS ->
  let builds :=
    length (fst (_split_generators encode_example getitem self dl_manager fs []))
  in
  ((name (_builder_config self) = "subwords8k"
    \/ name (_builder_config self) = "subwords32k")
   /\ subword_based (text_encoder_config (_builder_config self)) = true
   /\ builds = 1)
  \/ ((name (_builder_config self) = "plain_text"
       \/ name (_builder_config self) = "bytes")
      /\ subword_based (text_encoder_config (_builder_config self)) = false
      /\ builds = 0).
Proof.
  intros Hd Hc builds. subst builds.
  erewrite split_generators_log by exact Hd.
  rewrite maybe_build_from_corpus_log. cbn [_info features text_feature encoder_config].
  destruct Hc as [<-|[<-|[<-|[<-|[]]]]]; cbn; auto 10.
Qed.

Lemma vocabulary_built_once_for_subwords_witness :
  length (fst (_split_generators store_as_is field
                 (builder_of (nth 2 BUILDER_CONFIGS plain_text_config))
                 (extracted_at "/data") extracted_fs [])) = 1
  /\ length (fst (_split_generators store_as_is field
                    (builder_of (nth 1 BUILDER_CONFIGS plain_text_config))
                    (extracted_at "/data") extracted_fs [])) = 0.
Proof.
  split.
  - destruct (@vocabulary_built_once_for_subwords example_dict string
                store_as_is field
                (builder_of (nth 2 BUILDER_CONFIGS plain_text_config))
                (extracted_at "/data") extracted_fs "/data" eq_refl
                (or_intror (or_intror (or_introl eq_refl))))
      as [[_ [_ H]]|[_ [H _]]]; [exact H | discriminate H].
  - destruct (@vocabulary_built_once_for_subwords example_dict string
                store_as_is field
                (builder_of (nth 1 BUILDER_CONFIGS plain_text_config))
                (extracted_at "/data") extracted_fs "/data" eq_refl
                (or_intror (or_introl eq_refl)))
      as [[_ [H _]]|[_ [_ H]]]; [discriminate H | exact H].
Defined.

(** *** Paths under the extraction root *)

Lemma string_app_assoc (a b c : string) : (a ++ b) ++ c = a ++ b ++ c.
Proof. induction a as [|x a IH]; simpl; [reflexivity | now rewrite IH]. Qed.

Lemma rev_string_app (a b : string) :
  Str.rev_string (a ++ b) = Str.rev_string b ++ Str.rev_string a.
Proof.
  unfold Str.rev_string.
  now rewrite list_ascii_of_string_app, rev_app_distr, string_of_list_ascii_app.
Qed.

(** Joining a relative component to a path that is not empty and does not
    end with the separator puts one separator between them. *)
Lemma join_step_relative (path b : string) :
  path <> "" -> Str.endswith path os_path.sep = false ->
  Str.startswith b os_path.sep = false ->
  os_path.join_step path b = path ++ "/" ++ b.
Proof.
  intros Hne He Hb. unfold os_path.join_step. rewrite Hb, He.
  apply String.eqb_neq in Hne. now rewrite Hne.
Qed.

Lemma join_aclImdb (root leaf : string) :
  root <> "" -> Str.endswith root os_path.sep = false ->
  Str.startswith leaf os_path.sep = false ->
  os_path.join root ["aclImdb"; leaf] = root ++ "/aclImdb/" ++ leaf.
Proof.
  intros Hne He Hl. unfold os_path.join. cbn [fold_left].
  rewrite (@join_step_relative root "aclImdb" Hne He eq_refl).
  rewrite join_step_relative.
  - rewrite string_app_assoc. reflexivity.
  - destruct root; [contradiction | discriminate].
  - unfold Str.endswith. rewrite rev_string_app. reflexivity.
  - exact Hl.
Qed.

(** C4, as stated, fails: with the archive extracted at "/data" the two
    descriptors are over "/data/aclImdb/train" and "/data/aclImdb/test",
    not over "/data/train" and "/data/test". *)
Lemma split_generators_not_under_root :
  snd (_split_generators store_as_is field (builder_of plain_text_config)
         (extracted_at "/data") corpus_fs [])
  = inr [ {| split := TRAIN; num_shards := 10;
             gen_kwargs := [("directory", "/data/aclImdb/train")] |};
          {| split := TEST; num_shards := 10;
             gen_kwargs := [("directory", "/data/aclImdb/test")] |} ]
  /\ snd (_split_generators store_as_is field (builder_of plain_text_config)
            (extracted_at "/data") corpus_fs [])
     <> inr (descriptors_as_specified "/data").
Proof. split; [reflexivity | discriminate]. Qed.

(** C4, amended. A run of split setup whose archive is extracted at
    [root], and whose vocabulary building, if the configuration asks for
    one, reads the training files without error, returns exactly two
    split descriptors: the first named "train" and the second "test",
    each with 10 shards, over [os.path.join(root, "aclImdb", "train")]
    and [os.path.join(root, "aclImdb", "test")]; for a root that is not
    empty and does not end with "/" these are [<root>/aclImdb/train] and
    [<root>/aclImdb/test]. *)
Theorem split_generators_descriptors
  (stored_record item : Type)
  (encode_example : IMDBReviews -> example_dict -> stored_record)
  (getitem : stored_record -> string -> item)
  (self : IMDBReviews) (dl_manager : DownloadManager) (fs : FileSystem)
  (log : build_log item) (root : string) :
  download_and_extract dl_manager _DOWNLOAD_URL = inr root ->
  (subword_based (text_encoder_config (_builder_config self)) = true ->
   raised (_vocab_text_gen encode_example getitem self fs
             (os_path.join root ["aclImdb"; "train"])) = None) ->
  exists train_dir test_dir,
    snd (_split_generators encode_example getitem self dl_manager fs log)
    = inr [ {| split := TRAIN; num_shards := 10;
               gen_kwargs := [("directory", train_dir)] |};
            {| split := TEST; num_shards := 10;
               gen_kwargs := [("directory", test_dir)] |} ]
    /\ Split_name TRAIN = "train" /\ Split_name TEST = "test"
    /\ train_dir = os_path.join root ["aclImdb"; "train"]
    /\ test_dir = os_path.join root ["aclImdb"; "test"]
    /\ (root <> "" -> Str.endswith root "/" = false ->
        train_dir = root ++ "/aclImdb/train"
        /\ test_dir = root ++ "/aclImdb/test").
Proof.
  intros Hd Hv.
  exists (os_path.join root ["aclImdb"; "train"]),
         (os_path.join root ["aclImdb"; "test"]).
  split; [|repeat split; auto using join_aclImdb].
  unfold _split_generators. rewrite Hd.
  unfold maybe_build_from_corpus, subword_based in *.
  cbn [_info features text_feature encoder_config] in *.
  destruct (strategy_of (text_encoder_config (_builder_config self)));
    try reflexivity.
  specialize (Hv eq_refl). unfold raised in Hv.
  destruct (snd (_vocab_text_gen encode_example getitem self fs
                   (os_path.join root ["aclImdb"; "train"])));
    [discriminate | reflexivity].
Qed.

Lemma split_generators_descriptors_witness :
  download_and_extract (extracted_at "/data") _DOWNLOAD_URL = inr "/data"
  /\ exists train_dir test_dir,
       snd (_split_generators store_as_is field
              (builder_of (nth 3 BUILDER_CONFIGS plain_text_config))
              (extracted_at "/data") extracted_fs [])
       = inr [ {| split := TRAIN; num_shards := 10;
                  gen_kwargs := [("directory", train_dir)] |};
               {| split := TEST; num_shards := 10;
                  gen_kwargs := [("directory", test_dir)] |} ]
       /\ Split_name TRAIN = "train" /\ Split_name TEST = "test"
       /\ train_dir = os_path.join "/data" ["aclImdb"; "train"]
       /\ test_dir = os_path.join "/data" ["aclImdb"; "test"]
       /\ ("/data" <> "" -> Str.endswith "/data" "/" = false ->
           train_dir = "/data" ++ "/aclImdb/train"
           /\ test_dir = "/data" ++ "/aclImdb/test").
Proof.
  split; [reflexivity|].
  apply (@split_generators_descriptors example_dict string store_as_is field
           (builder_of (nth 3 BUILDER_CONFIGS plain_text_config))
           (extracted_at "/data") extracted_fs [] "/data").
  - reflexivity.
  - intros _. reflexivity.
Defined.

Example split_generators_subwords8k :
  _split_generators store_as_is field
    (builder_of (nth 2 BUILDER_CONFIGS plain_text_config))
    (extracted_at "/data") extracted_fs []
  = ([ {| target_vocab_size := Some 8192%N;
          corpus := ["Loved it."; "Dull."] |} ],
     inr [ {| split := TRAIN; num_shards := 10;
              gen_kwargs := [("directory", "/data/aclImdb/train")] |};
           {| split := TEST; num_shards := 10;
              gen_kwargs := [("directory", "/data/aclImdb/test")] |} ]).
Proof. reflexivity. Qed.

Example split_generators_bytes :
  fst (_split_generators store_as_is field
         (builder_of (nth 1 BUILDER_CONFIGS plain_text_config))
         (extracted_at "/data") extracted_fs [])
  = [].
Proof. reflexivity. Qed.

Example split_generators_download_fails :
  _split_generators store_as_is field
    (builder_of (nth 2 BUILDER_CONFIGS plain_text_config))
    {| download_and_extract := fun url => inl (DownloadError url) |}
    extracted_fs []
  = ([], inl (DownloadError _DOWNLOAD_URL)).
Proof. reflexivity. Qed.

(** A configuration without a learned vocabulary never runs the text
    generator, so split setup returns whatever the training files are;
    a subword configuration runs it and fails with it. *)
Example split_generators_corpus_missing :
  snd (_split_generators store_as_is field
         (builder_of (nth 1 BUILDER_CONFIGS plain_text_config))
         (extracted_at "/data") corpus_fs [])
  = inr [ {| split := TRAIN; num_shards := 10;
             gen_kwargs := [("directory", "/data/aclImdb/train")] |};
          {| split := TEST; num_shards := 10;
             gen_kwargs := [("directory", "/data/aclImdb/test")] |} ]
  /\ _split_generators store_as_is field
       (builder_of (nth 3 BUILDER_CONFIGS plain_text_config))
       (extracted_at "/data") corpus_fs []
     = ([ {| target_vocab_size := Some 32768%N; corpus := [] |} ],
        inl (NotFoundError "/data/aclImdb/train/pos")).
Proof. split; reflexivity. Qed.

(** * Further properties *)

(** ** The example generator at its edges *)

(** X1. When listing the "pos" subdirectory raises, the run raises that
    error before it yields anything, whatever else the file system
    holds. *)
Theorem generate_examples_pos_listing_fails
  (stored_record : Type)
  (encode_example : IMDBReviews -> example_dict -> stored_record)
  (self : IMDBReviews) (fs : FileSystem) (directory : string) (e : exn) :
  ListDirectory fs (os_path.join directory ["pos"]) = inl e ->
  _generate_examples encode_example self fs directory = ([], inl e).
Proof.
  intros H. rewrite generate_examples_plan. unfold plan. now rewrite H.
Qed.

Lemma generate_examples_pos_listing_fails_witness :
  ListDirectory no_pos_fs (os_path.join "train" ["pos"])
    = inl (NotFoundError "train/pos")
  /\ _generate_examples store_as_is (builder_of plain_text_config)
       no_pos_fs "train"
     = ([], inl (NotFoundError "train/pos")).
Proof.
  split; [reflexivity|].
  apply (@generate_examples_pos_listing_fails example_dict store_as_is
           (builder_of plain_text_config) no_pos_fs "train").
  reflexivity.
Defined.

(** X2. When the "pos" files are all read and listing the "neg"
    subdirectory raises, the run yields the example of every "pos" file,
    all labelled "pos", and then raises that error. *)
Theorem generate_examples_neg_listing_fails
  (stored_record : Type)
  (encode_example : IMDBReviews -> example_dict -> stored_record)
  (self : IMDBReviews) (fs : FileSystem) (directory : string)
  (pos_files : list string) (e : exn) :
  ListDirectory fs (os_path.join directory ["pos"]) = inr pos_files ->
  (forall f, In f pos_files ->
     readable fs (os_path.join (os_path.join directory ["pos"]) [f]) = true) ->
  ListDirectory fs (os_path.join directory ["neg"]) = inl e ->
  exists exs : list example_dict,
    _generate_examples encode_example self fs directory
    = (map (encode_example self) exs, inl e)
    /\ length exs = length pos_files
    /\ Forall (fun ex => label ex = "pos") exs.
Proof.
  intros Hp Rp Hn.
  destruct (attempts_readable fs _ "pos" pos_files Rp) as [ps [Hps [Lp Fp]]].
  exists ps. repeat split; try assumption.
  rewrite generate_examples_plan. unfold plan. rewrite Hp, Hn, Hps.
  now rewrite collect_stop.
Qed.

Lemma generate_examples_neg_listing_fails_witness :
  exists exs : list example_dict,
    _generate_examples store_as_is (builder_of plain_text_config)
      no_neg_fs "train"
    = (map (store_as_is (builder_of plain_text_config)) exs,
       inl (NotFoundError "train/neg"))
    /\ length exs = 2
    /\ Forall (fun ex => label ex = "pos") exs.
Proof.
  apply (@generate_examples_neg_listing_fails example_dict store_as_is
           (builder_of plain_text_config) no_neg_fs "train"
           ["0_9.txt"; "1_7.txt"]).
  - reflexivity.
  - intros f [<-|[<-|[]]]; reflexivity.
  - reflexivity.
Defined.

(** A run of outcomes that returns has met no error. *)
Lemma collect_returns {Y} (os : list (exn + Y)) :
  raised (collect os) = None ->
  Forall (fun o => exists y, o = inr y) os
  /\ length (yielded (collect os)) = length os.
Proof.
  induction os as [|[e|y] os IH].
  - intros _. split; [constructor | reflexivity].
  - rewrite collect_cons_inl. discriminate.
  - rewrite collect_cons_inr. unfold raised, yielded in *. cbn [fst snd].
    intros H. destruct (IH H) as [Hf Hl]. split.
    + constructor; eauto.
    + simpl. now rewrite Hl.
Qed.

Lemma attempt_inr_readable (fs : FileSystem) (d lbl f : string) :
  (exists ex, attempt fs d lbl f = inr ex) ->
  readable fs (os_path.join d [f]) = true.
Proof.
  unfold attempt, readable. intros [ex H].
  now destruct (read_text fs (os_path.join d [f])).
Qed.

(** X3. A run that returns normally has listed both subdirectories and
    read every file they list, and has yielded one example per file. *)
Theorem generate_examples_returns_only_if_all_read
  (stored_record : Type)
  (encode_example : IMDBReviews -> example_dict -> stored_record)
  (self : IMDBReviews) (fs : FileSystem) (directory : string) :
  raised (_generate_examples encode_example self fs directory) = None ->
  exists pos_files neg_files,
    ListDirectory fs (os_path.join directory ["pos"]) = inr pos_files
    /\ ListDirectory fs (os_path.join directory ["neg"]) = inr neg_files
    /\ (forall f, In f pos_files ->
          readable fs (os_path.join (os_path.join directory ["pos"]) [f]) = true)
    /\ (forall f, In f neg_files ->
          readable fs (os_path.join (os_path.join directory ["neg"]) [f]) = true)
    /\ length (yielded (_generate_examples encode_example self fs directory))
       = length pos_files + length neg_files.
Proof.
  rewrite generate_examples_plan, raised_map_gen, yielded_map_gen, length_map.
  intros H. apply collect_returns in H. destruct H as [Hf Hl].
  rewrite Hl. clear Hl. revert Hf. unfold plan.
  destruct (ListDirectory fs (os_path.join directory ["pos"]))
    as [e|pos_files].
  { intros Hf. inversion Hf as [|? ? [y Hy] _]. discriminate Hy. }
  destruct (ListDirectory fs (os_path.join directory ["neg"]))
    as [e|neg_files]; intros Hf; apply Forall_app in Hf; destruct Hf as [Hp Hn].
  { inversion Hn as [|? ? [y Hy] _]. discriminate Hy. }
  exists pos_files, neg_files. repeat split.
  - intros f Hin. apply attempt_inr_readable with (lbl := "pos").
    rewrite Forall_forall in Hp. apply Hp. now apply in_map.
  - intros f Hin. apply attempt_inr_readable with (lbl := "neg").
    rewrite Forall_forall in Hn. apply Hn. now apply in_map.
  - now rewrite length_app, !length_map.
Qed.

Lemma generate_examples_returns_only_if_all_read_witness :
  raised (_generate_examples store_as_is (builder_of plain_text_config)
            corpus_fs "train") = None
  /\ exists pos_files neg_files,
       ListDirectory corpus_fs (os_path.join "train" ["pos"]) = inr pos_files
       /\ ListDirectory corpus_fs (os_path.join "train" ["neg"]) = inr neg_files
       /\ (forall f, In f pos_files ->
             readable corpus_fs
               (os_path.join (os_path.join "train" ["pos"]) [f]) = true)
       /\ (forall f, In f neg_files ->
             readable corpus_fs
               (os_path.join (os_path.join "train" ["neg"]) [f]) = true)
       /\ length (yielded (_generate_examples store_as_is
                             (builder_of plain_text_config) corpus_fs "train"))
          = length pos_files + length neg_files.
Proof.
  split; [reflexivity|].
  apply (@generate_examples_returns_only_if_all_read example_dict store_as_is
           (builder_of plain_text_config) corpus_fs "train").
  reflexivity.
Defined.

Lemma strip_all_space (s : string) : Str.all_space s -> Str.strip s = "".
Proof.
  unfold Str.all_space, Str.strip, Str.strip_chars. intros H.
  now rewrite lstrip_chars_all_space.
Qed.

Lemma Forall2_nth_error {A B} (R : A -> B -> Prop) (l : list A) (l' : list B)
  (i : nat) (a : A) :
  Forall2 R l l' -> nth_error l i = Some a ->
  exists b, nth_error l' i = Some b /\ R a b.
Proof.
  intros H. revert i. induction H as [|x y l l' Hxy _ IH]; intros [|i];
    simpl; try discriminate.
  - intros [= ->]. eauto.
  - apply IH.
Qed.

(** When every file a run gets to is read, each of them gives its
    example, at its place. *)
Lemma generate_examples_all_read
  (stored_record : Type)
  (encode_example : IMDBReviews -> example_dict -> stored_record)
  (self : IMDBReviews) (fs : FileSystem) (directory : string)
  (i : nat) (d lbl f content : string) :
  (forall d' lbl' f', In (d', lbl', f') (sources fs directory) ->
     readable fs (os_path.join d' [f']) = true) ->
  nth_error (sources fs directory) i = Some (d, lbl, f) ->
  read_text fs (os_path.join d [f]) = inr content ->
  nth_error (yielded (_generate_examples encode_example self fs directory)) i
  = Some (encode_example self {| text := Str.strip content; label := lbl |}).
Proof.
  intros Hall Hi Hr.
  assert (Hf : Forall (fun s => readable fs
                                  (os_path.join (fst (fst s)) [snd s]) = true)
                 (sources fs directory)).
  { apply Forall_forall. intros [[d' l'] f'] Hin. exact (Hall _ _ _ Hin). }
  destruct (attempts_before fs Hf) as [exs [Hm H2]].
  destruct (Forall2_nth_error i H2 Hi) as [ex [Hex Ha]].
  simpl in Ha. unfold attempt in Ha. rewrite Hr in Ha. injection Ha as <-.
  rewrite generate_examples_plan, yielded_map_gen.
  destruct (plan_sources fs directory) as [tail [-> _]].
  rewrite Hm, collect_app, collect_all. unfold yielded, bind.
  destruct (collect tail) as [zs r]. cbn [fst].
  rewrite map_app, nth_error_app1.
  - now rewrite nth_error_map, Hex.
  - rewrite length_map. apply nth_error_Some. now rewrite Hex.
Qed.

(** X4. An empty file, or one that holds whitespace only, is not
    skipped: when the files of a run are all read, such a file gives, at
    its place, the example with the empty text and the label of its
    subdirectory. *)
Theorem generate_examples_keeps_blank_reviews
  (stored_record : Type)
  (encode_example : IMDBReviews -> example_dict -> stored_record)
  (self : IMDBReviews) (fs : FileSystem) (directory : string)
  (i : nat) (d lbl f content : string) :
  (forall d' lbl' f', In (d', lbl', f') (sources fs directory) ->
     readable fs (os_path.join d' [f']) = true) ->
  nth_error (sources fs directory) i = Some (d, lbl, f) ->
  read_text fs (os_path.join d [f]) = inr content ->
  Str.all_space content ->
  nth_error (yielded (_generate_examples encode_example self fs directory)) i
  = Some (encode_example self {| text := ""; label := lbl |}).
Proof.
  intros Hall Hi Hr Hs.
  rewrite (generate_examples_all_read encode_example self fs directory
             i Hall Hi Hr).
  now rewrite strip_all_space.
Qed.

Lemma generate_examples_keeps_blank_reviews_witness :
  nth_error (sources blank_fs "train") 1 = Some ("train/neg", "neg", "0_3.txt")
  /\ read_text blank_fs "train/neg/0_3.txt" = inr ("  " ++ LF)
  /\ nth_error (yielded (_generate_examples store_as_is
                           (builder_of plain_text_config) blank_fs "train")) 1
     = Some {| text := ""; label := "neg" |}.
Proof.
  split; [reflexivity|]. split; [reflexivity|].
  apply (@generate_examples_keeps_blank_reviews example_dict store_as_is
           (builder_of plain_text_config) blank_fs "train" 1
           "train/neg" "neg" "0_3.txt" ("  " ++ LF)).
  - intros d l f [[= <- <- <-]|[[= <- <- <-]|[]]]; reflexivity.
  - reflexivity.
  - reflexivity.
  - unfold Str.all_space, Str.spaces. repeat constructor.
Defined.

Example generate_examples_blank :
  _generate_examples store_as_is (builder_of plain_text_config) blank_fs "train"
  = ([ {| text := ""; label := "pos" |}; {| text := ""; label := "neg" |} ],
     inr tt).
Proof. reflexivity. Qed.

Lemma attempts_renamed (fs fs' : FileSystem) (d lbl : string)
  (filenames filenames' : list string) :
  Forall2 (fun f f' => read_text fs (os_path.join d [f])
                       = read_text fs' (os_path.join d [f']))
    filenames filenames' ->
  map (attempt fs d lbl) filenames = map (attempt fs' d lbl) filenames'.
Proof.
  induction 1 as [|f f' fl fl' Hr _ IH]; [reflexivity|].
  simpl. unfold attempt at 1 3. now rewrite Hr, IH.
Qed.

(** X5. The names of the files do not reach the examples: two
    directories whose listings have files of the same contents, place by
    place, under whatever names, give the same run. *)
Theorem generate_examples_ignores_file_names
  (stored_record : Type)
  (encode_example : IMDBReviews -> example_dict -> stored_record)
  (self : IMDBReviews) (fs fs' : FileSystem) (directory : string)
  (pos_files pos_files' neg_files neg_files' : list string) :
  ListDirectory fs (os_path.join directory ["pos"]) = inr pos_files ->
  ListDirectory fs' (os_path.join directory ["pos"]) = inr pos_files' ->
  ListDirectory fs (os_path.join directory ["neg"]) = inr neg_files ->
  ListDirectory fs' (os_path.join directory ["neg"]) = inr neg_files' ->
  Forall2 (fun f f' =>
             read_text fs (os_path.join (os_path.join directory ["pos"]) [f])
             = read_text fs' (os_path.join (os_path.join directory ["pos"]) [f']))
    pos_files pos_files' ->
  Forall2 (fun f f' =>
             read_text fs (os_path.join (os_path.join directory ["neg"]) [f])
             = read_text fs' (os_path.join (os_path.join directory ["neg"]) [f']))
    neg_files neg_files' ->
  _generate_examples encode_example self fs directory
  = _generate_examples encode_example self fs' directory.
Proof.
  intros Hp Hp' Hn Hn' Fp Fn.
  rewrite !generate_examples_plan.
  rewrite (plan_listed fs directory Hp Hn), (plan_listed fs' directory Hp' Hn').
  now rewrite (@attempts_renamed fs fs' _ "pos" _ _ Fp),
    (@attempts_renamed fs fs' _ "neg" _ _ Fn).
Qed.

Lemma generate_examples_ignores_file_names_witness :
  ListDirectory corpus_fs "train/pos" <> ListDirectory renamed_fs "train/pos"
  /\ _generate_examples store_as_is (builder_of plain_text_config)
       corpus_fs "train"
     = _generate_examples store_as_is (builder_of plain_text_config)
         renamed_fs "train".
Proof.
  split; [discriminate|].
  apply (@generate_examples_ignores_file_names example_dict store_as_is
           (builder_of plain_text_config) corpus_fs renamed_fs "train"
           ["0_9.txt"; "1_7.txt"] ["a"; "b"] ["0_3.txt"] ["c"]);
    try reflexivity; repeat constructor.
Defined.

(** X6. Every label the generator hands to the encoding is a class name
    of the metadata [_info] declares, so the encoding of a label is
    always defined: "neg" is stored as 0 and "pos" as 1. *)
Theorem generated_labels_are_class_names
  (self : IMDBReviews) (fs : FileSystem) (directory : string)
  (i : nat) (ex : example_dict) :
  nth_error
    (yielded (_generate_examples (fun _ d => d) self fs directory)) i
    = Some ex ->
  In (label ex) (names (label_feature (features (_info self))))
  /\ index_of (label ex) (names (label_feature (features (_info self))))
     = Some (if label ex =? "pos" then 1 else 0).
Proof.
  intros H. apply generate_examples_nth in H.
  destruct H as [d [lbl [f [content [Hs [_ ->]]]]]].
  apply nth_error_In, sources_labels in Hs.
  destruct Hs as [[_ ->]|[_ ->]]; simpl; auto.
Qed.

Lemma generated_labels_are_class_names_witness :
  In "neg" (names (label_feature
                     (features (_info (builder_of plain_text_config)))))
  /\ index_of "neg"
       (names (label_feature (features (_info (builder_of plain_text_config)))))
     = Some 0.
Proof.
  apply (@generated_labels_are_class_names (builder_of plain_text_config)
           corpus_fs "train" 2 {| text := "Dull."; label := "neg" |}).
  reflexivity.
Defined.

(** ** Split setup at its edges *)

(** Two states of the file system that agree on a split directory give
    it the same plan. *)
Lemma plan_agree (fs fs' : FileSystem) (directory : string) :
  ListDirectory fs (os_path.join directory ["pos"])
    = ListDirectory fs' (os_path.join directory ["pos"]) ->
  ListDirectory fs (os_path.join directory ["neg"])
    = ListDirectory fs' (os_path.join directory ["neg"]) ->
  (forall d lbl f, In (d, lbl, f) (sources fs directory) ->
     read_text fs (os_path.join d [f]) = read_text fs' (os_path.join d [f])) ->
  plan fs directory = plan fs' directory.
Proof.
  unfold plan, sources, listing. intros <- <-.
  destruct (ListDirectory fs (os_path.join directory ["pos"]))
    as [e|pos_files]; [reflexivity|].
  intros Hr. f_equal.
  - apply map_ext_in. intros f Hf. unfold attempt.
    rewrite (Hr _ "pos" f); [reflexivity|].
    apply in_or_app. left. apply in_map_iff. eauto.
  - destruct (ListDirectory fs (os_path.join directory ["neg"]))
      as [e|neg_files]; [reflexivity|].
    apply map_ext_in. intros f Hf. unfold attempt.
    rewrite (Hr _ "neg" f); [reflexivity|].
    apply in_or_app. right. apply in_map_iff. eauto.
Qed.

Section SplitSetupFacts.

Variable stored_record : Type.
Variable item : Type.
Variable encode_example : IMDBReviews -> example_dict -> stored_record.
Variable getitem : stored_record -> string -> item.
Variable self : IMDBReviews.
Variable dl_manager : DownloadManager.

(** Split setup, once the archive is extracted at [root]. *)
Lemma split_generators_extracted (fs : FileSystem) (log : build_log item)
  (root : string) :
  download_and_extract dl_manager _DOWNLOAD_URL = inr root ->
  _split_generators encode_example getitem self dl_manager fs log
  = match strategy_of (text_encoder_config (_builder_config self)) with
    | Subword size =>
        let g := _vocab_text_gen encode_example getitem self fs
                   (os_path.join root ["aclImdb"; "train"]) in
        ((log ++ [ {| target_vocab_size := size; corpus := yielded g |} ])%list,
         match snd g with
         | inl e => inl e
         | inr _ =>
             inr [ {| split := TRAIN; num_shards := 10;
                      gen_kwargs :=
                        [("directory",
                          os_path.join root ["aclImdb"; "train"])] |};
                   {| split := TEST; num_shards := 10;
                      gen_kwargs :=
                        [("directory",
                          os_path.join root ["aclImdb"; "test"])] |} ]
         end)
    | _ =>
        (log,
         inr [ {| split := TRAIN; num_shards := 10;
                  gen_kwargs :=
                    [("directory", os_path.join root ["aclImdb"; "train"])] |};
               {| split := TEST; num_shards := 10;
                  gen_kwargs :=
                    [("directory", os_path.join root ["aclImdb"; "test"])] |} ])
    end.
Proof.
  intros Hd. unfold _split_generators, maybe_build_from_corpus. rewrite Hd.
  cbn [_info features text_feature encoder_config].
  destruct (strategy_of (text_encoder_config (_builder_config self)));
    try reflexivity.
  cbn zeta.
  now destruct (snd (_vocab_text_gen encode_example getitem self fs
                       (os_path.join root ["aclImdb"; "train"]))).
Qed.

End SplitSetupFacts.

(** X7. Split setup returns descriptors only when the download returned
    a root and the vocabulary building it ran, if any, read the training
    texts without error; the descriptors are then the two over that
    root, and nothing else. *)
Theorem split_generators_returns_only_after_download
  (stored_record item : Type)
  (encode_example : IMDBReviews -> example_dict -> stored_record)
  (getitem : stored_record -> string -> item)
  (self : IMDBReviews) (dl_manager : DownloadManager) (fs : FileSystem)
  (log : build_log item) (sgs : list SplitGenerator) :
  snd (_split_generators encode_example getitem self dl_manager fs log)
    = inr sgs ->
  exists root,
    download_and_extract dl_manager _DOWNLOAD_URL = inr root
    /\ sgs = [ {| split := TRAIN; num_shards := 10;
                  gen_kwargs :=
                    [("directory", os_path.join root ["aclImdb"; "train"])] |};
               {| split := TEST; num_shards := 10;
                  gen_kwargs :=
                    [("directory", os_path.join root ["aclImdb"; "test"])] |} ]
    /\ (subword_based (text_encoder_config (_builder_config self)) = true ->
        raised (_vocab_text_gen encode_example getitem self fs
                  (os_path.join root ["aclImdb"; "train"])) = None).
Proof.
  destruct (download_and_extract dl_manager _DOWNLOAD_URL) as [e|root] eqn:Hd.
  { unfold _split_generators. rewrite Hd. discriminate. }
  rewrite (@split_generators_extracted _ _ encode_example getitem self
             dl_manager fs log root Hd).
  unfold subword_based, raised.
  destruct (strategy_of (text_encoder_config (_builder_config self)));
    cbn [snd].
  - intros [= <-]. exists root.
    split; [reflexivity|]. split; [reflexivity | discriminate].
  - intros [= <-]. exists root.
    split; [reflexivity|]. split; [reflexivity | discriminate].
  - cbn zeta.
    destruct (snd (_vocab_text_gen encode_example getitem self fs
                     (os_path.join root ["aclImdb"; "train"]))) eqn:Hs;
      [discriminate|].
    intros [= <-]. exists root.
    split; [reflexivity|]. split; [reflexivity|]. intros _. now rewrite Hs.
Qed.

Lemma split_generators_returns_only_after_download_witness :
  exists root,
    download_and_extract (extracted_at "/data") _DOWNLOAD_URL = inr root
    /\ [ {| split := TRAIN; num_shards := 10;
            gen_kwargs := [("directory", "/data/aclImdb/train")] |};
         {| split := TEST; num_shards := 10;
            gen_kwargs := [("directory", "/data/aclImdb/test")] |} ]
       = [ {| split := TRAIN; num_shards := 10;
              gen_kwargs :=
                [("directory", os_path.join root ["aclImdb"; "train"])] |};
           {| split := TEST; num_shards := 10;
              gen_kwargs :=
                [("directory", os_path.join root ["aclImdb"; "test"])] |} ]
    /\ (subword_based
          (text_encoder_config
             (_builder_config
                (builder_of (nth 2 BUILDER_CONFIGS plain_text_config)))) = true ->
        raised (_vocab_text_gen store_as_is field
                  (builder_of (nth 2 BUILDER_CONFIGS plain_text_config))
                  extracted_fs
                  (os_path.join root ["aclImdb"; "train"])) = None).
Proof.
  apply (@split_generators_returns_only_after_download example_dict string
           store_as_is field
           (builder_of (nth 2 BUILDER_CONFIGS plain_text_config))
           (extracted_at "/data") extracted_fs []).
  reflexivity.
Defined.

(** X8. With a configuration whose strategy is not subword-based, split
    setup does not depend on the file system at all and leaves the log
    of vocabulary builds as it was. *)
Theorem split_generators_without_vocabulary
  (stored_record item : Type)
  (encode_example : IMDBReviews -> example_dict -> stored_record)
  (getitem : stored_record -> string -> item)
  (self : IMDBReviews) (dl_manager : DownloadManager) (fs fs' : FileSystem)
  (log : build_log item) :
  subword_based (text_encoder_config (_builder_config self)) = false ->
  _split_generators encode_example getitem self dl_manager fs log
  = _split_generators encode_example getitem self dl_manager fs' log
  /\ fst (_split_generators encode_example getitem self dl_manager fs log)
     = log.
Proof.
  intros Hs.
  destruct (download_and_extract dl_manager _DOWNLOAD_URL) as [e|root] eqn:Hd.
  { unfold _split_generators. rewrite Hd. split; reflexivity. }
  rewrite (@split_generators_extracted _ _ encode_example getitem self
             dl_manager fs log root Hd).
  rewrite (@split_generators_extracted _ _ encode_example getitem self
             dl_manager fs' log root Hd).
  unfold subword_based in Hs.
  destruct (strategy_of (text_encoder_config (_builder_config self)));
    try discriminate; split; reflexivity.
Qed.

Lemma split_generators_without_vocabulary_witness :
  _split_generators store_as_is field
    (builder_of (nth 1 BUILDER_CONFIGS plain_text_config))
    (extracted_at "/data") extracted_fs []
  = _split_generators store_as_is field
      (builder_of (nth 1 BUILDER_CONFIGS plain_text_config))
      (extracted_at "/data") broken_fs []
  /\ fst (_split_generators store_as_is field
            (builder_of (nth 1 BUILDER_CONFIGS plain_text_config))
            (extracted_at "/data") extracted_fs [])
     = [].
Proof.
  apply (@split_generators_without_vocabulary example_dict string
           store_as_is field
           (builder_of (nth 1 BUILDER_CONFIGS plain_text_config))
           (extracted_at "/data") extracted_fs broken_fs []).
  reflexivity.
Defined.

Lemma strategy_of_subword (c : TextEncoderConfig) :
  subword_based c = true -> strategy_of c = Subword (vocab_size c).
Proof.
  unfold subword_based, strategy_of.
  destruct (encoder_cls c) as [[]|]; [reflexivity|].
  destruct (encoder c) as [[]|]; discriminate.
Qed.

(** X9. With a subword-based configuration and the archive extracted at
    [root], split setup adds to the log exactly one vocabulary build: its
    target size is the [vocab_size] of the configuration and its corpus
    is the "text" item of each record the example generator yields over
    [root/aclImdb/train], in that order.  This rests on the model of the
    framework's [maybe_build_from_corpus]. *)
Theorem vocabulary_is_built_from_training_texts
  (stored_record item : Type)
  (encode_example : IMDBReviews -> example_dict -> stored_record)
  (getitem : stored_record -> string -> item)
  (self : IMDBReviews) (dl_manager : DownloadManager) (fs : FileSystem)
  (log : build_log item) (root : string) :
  subword_based (text_encoder_config (_builder_config self)) = true ->
  download_and_extract dl_manager _DOWNLOAD_URL = inr root ->
  fst (_split_generators encode_example getitem self dl_manager fs log)
  = (log ++
     [ {| target_vocab_size :=
            vocab_size (text_encoder_config (_builder_config self));
          corpus :=
            map (fun ex => getitem ex "text")
              (yielded (_generate_examples encode_example self fs
                          (os_path.join root ["aclImdb"; "train"]))) |} ])%list.
Proof.
  intros Hs Hd.
  rewrite (@split_generators_extracted _ _ encode_example getitem self
             dl_manager fs log root Hd).
  rewrite (strategy_of_subword _ Hs). cbn zeta. cbn [fst].
  unfold _vocab_text_gen. now rewrite for_gen_yield, yielded_map_gen.
Qed.

Lemma vocabulary_is_built_from_training_texts_witness :
  fst (_split_generators store_as_is field
         (builder_of (nth 3 BUILDER_CONFIGS plain_text_config))
         (extracted_at "/data") extracted_fs [])
  = ([] ++
     [ {| target_vocab_size := Some 32768%N;
          corpus :=
            map (fun ex => field ex "text")
              (yielded (_generate_examples store_as_is
                          (builder_of (nth 3 BUILDER_CONFIGS plain_text_config))
                          extracted_fs
                          (os_path.join "/data" ["aclImdb"; "train"]))) |} ])%list.
Proof.
  apply (@vocabulary_is_built_from_training_texts example_dict string
           store_as_is field
           (builder_of (nth 3 BUILDER_CONFIGS plain_text_config))
           (extracted_at "/data") extracted_fs [] "/data");
    reflexivity.
Defined.

(** X10. Split setup reads nothing outside the training directory: two
    states of the file system that agree on the listings and the files of
    [root/aclImdb/train] give the same outcome and the same log, whatever
    they hold elsewhere, the test directory included. *)
Theorem split_generators_reads_training_directory_only
  (stored_record item : Type)
  (encode_example : IMDBReviews -> example_dict -> stored_record)
  (getitem : stored_record -> string -> item)
  (self : IMDBReviews) (dl_manager : DownloadManager) (fs fs' : FileSystem)
  (log : build_log item) (root : string) :
  download_and_extract dl_manager _DOWNLOAD_URL = inr root ->
  let train_dir := os_path.join root ["aclImdb"; "train"] in
  ListDirectory fs (os_path.join train_dir ["pos"])
    = ListDirectory fs' (os_path.join train_dir ["pos"]) ->
  ListDirectory fs (os_path.join train_dir ["neg"])
    = ListDirectory fs' (os_path.join train_dir ["neg"]) ->
  (forall d lbl f, In (d, lbl, f) (sources fs train_dir) ->
     read_text fs (os_path.join d [f]) = read_text fs' (os_path.join d [f])) ->
  _split_generators encode_example getitem self dl_manager fs log
  = _split_generators encode_example getitem self dl_manager fs' log.
Proof.
  intros Hd train_dir Hp Hn Hr.
  rewrite (@split_generators_extracted _ _ encode_example getitem self
             dl_manager fs log root Hd).
  rewrite (@split_generators_extracted _ _ encode_example getitem self
             dl_manager fs' log root Hd).
  unfold _vocab_text_gen. rewrite !generate_examples_plan.
  fold train_dir. now rewrite (plan_agree fs fs' train_dir Hp Hn Hr).
Qed.

Lemma split_generators_reads_training_directory_only_witness :
  ListDirectory extracted_fs "/data/aclImdb/test/pos"
    <> ListDirectory
         {| ListDirectory := fun d =>
              if d =? "/data/aclImdb/test/pos" then inr ["7_8.txt"]
              else ListDirectory extracted_fs d;
            Open := Open extracted_fs |} "/data/aclImdb/test/pos"
  /\ _split_generators store_as_is field
       (builder_of (nth 2 BUILDER_CONFIGS plain_text_config))
       (extracted_at "/data") extracted_fs []
     = _split_generators store_as_is field
         (builder_of (nth 2 BUILDER_CONFIGS plain_text_config))
         (extracted_at "/data")
         {| ListDirectory := fun d =>
              if d =? "/data/aclImdb/test/pos" then inr ["7_8.txt"]
              else ListDirectory extracted_fs d;
            Open := Open extracted_fs |} [].
Proof.
  split; [discriminate|].
  apply (@split_generators_reads_training_directory_only example_dict string
           store_as_is field
           (builder_of (nth 2 BUILDER_CONFIGS plain_text_config))
           (extracted_at "/data") extracted_fs
           {| ListDirectory := fun d =>
                if d =? "/data/aclImdb/test/pos" then inr ["7_8.txt"]
                else ListDirectory extracted_fs d;
              Open := Open extracted_fs |} [] "/data");
    try reflexivity.
Defined.

(** *** Directories and paths of the splits *)

Lemma string_app_inv_head (a b c : string) : a ++ b = a ++ c -> b = c.
Proof.
  induction a as [|x a IH]; simpl; [trivial|].
  intros [= H]. now apply IH.
Qed.

(** A relative component is appended to a stem that the path alone
    decides. *)
Lemma join_step_stem (path : string) :
  exists stem, forall b,
    Str.startswith b os_path.sep = false -> os_path.join_step path b = stem ++ b.
Proof.
  unfold os_path.join_step.
  destruct ((path =? "") || Str.endswith path os_path.sep).
  - exists path. intros b Hb. now rewrite Hb.
  - exists (path ++ os_path.sep). intros b Hb. rewrite Hb.
    now rewrite string_app_assoc.
Qed.

Lemma join_distinct (path b b' : string) :
  Str.startswith b os_path.sep = false ->
  Str.startswith b' os_path.sep = false ->
  b <> b' -> os_path.join path [b] <> os_path.join path [b'].
Proof.
  intros Hb Hb' Hne. unfold os_path.join. simpl.
  destruct (join_step_stem path) as [stem Hs].
  rewrite (Hs b Hb), (Hs b' Hb'). intros H.
  apply Hne. now apply string_app_inv_head in H.
Qed.

Lemma rev_string_nonempty (b : string) : b <> "" -> Str.rev_string b <> "".
Proof.
  destruct b as [|c b]; [contradiction|]. intros _.
  unfold Str.rev_string. simpl.
  destruct (rev (list_ascii_of_string b)); discriminate.
Qed.

Lemma endswith_app (a b : string) :
  b <> "" ->
  Str.endswith (a ++ b) os_path.sep = Str.endswith b os_path.sep.
Proof.
  intros Hb. unfold Str.endswith. rewrite rev_string_app.
  apply rev_string_nonempty in Hb.
  destruct (Str.rev_string b) as [|x r]; [contradiction|].
  change (Str.rev_string os_path.sep) with "/". cbn -[ascii_dec].
  destruct (ascii_dec "/" x); [|reflexivity].
  now destruct (r ++ Str.rev_string a), r.
Qed.

(** Joining a component that is not empty, does not start and does not
    end with the separator keeps a path fit for the next join. *)
Lemma join_step_chain (path b : string) :
  path <> "" -> Str.endswith path os_path.sep = false ->
  Str.startswith b os_path.sep = false ->
  b <> "" -> Str.endswith b os_path.sep = false ->
  os_path.join_step path b = path ++ "/" ++ b
  /\ path ++ "/" ++ b <> ""
  /\ Str.endswith (path ++ "/" ++ b) os_path.sep = false.
Proof.
  intros Hp He Hb Hne Hbe. split; [|split].
  - now apply join_step_relative.
  - destruct path; [contradiction | discriminate].
  - rewrite <- string_app_assoc, endswith_app; assumption.
Qed.

(** The descriptors of a run of split setup that returns. *)
Lemma split_generators_inr
  (stored_record item : Type)
  (encode_example : IMDBReviews -> example_dict -> stored_record)
  (getitem : stored_record -> string -> item)
  (self : IMDBReviews) (dl_manager : DownloadManager) (fs : FileSystem)
  (log : build_log item) (sgs : list SplitGenerator) :
  snd (_split_generators encode_example getitem self dl_manager fs log)
    = inr sgs ->
  exists root,
    download_and_extract dl_manager _DOWNLOAD_URL = inr root
    /\ sgs = map (fun s => {| split := s; num_shards := 10;
                              gen_kwargs :=
                                [("directory",
                                  os_path.join root ["aclImdb"; Split_name s])] |})
               [TRAIN; TEST].
Proof.
  destruct (download_and_extract dl_manager _DOWNLOAD_URL) as [e|root] eqn:Hd.
  { unfold _split_generators. rewrite Hd. discriminate. }
  rewrite (@split_generators_extracted _ _ encode_example getitem self
             dl_manager fs log root Hd).
  destruct (strategy_of (text_encoder_config (_builder_config self)));
    cbn zeta; cbn [snd];
    try destruct (snd (_vocab_text_gen encode_example getitem self fs
                         (os_path.join root ["aclImdb"; "train"])));
    try discriminate; intros [= <-]; exists root; split; reflexivity.
Qed.

(** X11. The descriptors of a run of split setup never share a split or
    a directory: the training and the test examples are read from
    different directories, whatever root the download gives. *)
Theorem split_generators_directories_distinct
  (stored_record item : Type)
  (encode_example : IMDBReviews -> example_dict -> stored_record)
  (getitem : stored_record -> string -> item)
  (self : IMDBReviews) (dl_manager : DownloadManager) (fs : FileSystem)
  (log : build_log item) (sgs : list SplitGenerator) :
  snd (_split_generators encode_example getitem self dl_manager fs log)
    = inr sgs ->
  NoDup (map split sgs) /\ NoDup (map gen_kwargs sgs).
Proof.
  intros H. apply split_generators_inr in H. destruct H as [root [_ ->]].
  split.
  - simpl. repeat constructor; simpl; intuition discriminate.
  - simpl. constructor; [|repeat constructor; simpl; tauto].
    intros [H|[]]. injection H as H.
    unfold os_path.join in H. simpl in H.
    revert H. apply (@join_distinct _ "test" "train"); try reflexivity.
    discriminate.
Qed.

Lemma split_generators_directories_distinct_witness :
  NoDup (map split
           [ {| split := TRAIN; num_shards := 10;
                gen_kwargs := [("directory", "/data/aclImdb/train")] |};
             {| split := TEST; num_shards := 10;
                gen_kwargs := [("directory", "/data/aclImdb/test")] |} ])
  /\ NoDup (map gen_kwargs
              [ {| split := TRAIN; num_shards := 10;
                   gen_kwargs := [("directory", "/data/aclImdb/train")] |};
                {| split := TEST; num_shards := 10;
                   gen_kwargs := [("directory", "/data/aclImdb/test")] |} ]).
Proof.
  apply (@split_generators_directories_distinct example_dict string
           store_as_is field (builder_of plain_text_config)
           (extracted_at "/data") corpus_fs []).
  reflexivity.
Defined.

Lemma join_components (root a b c f : string) :
  root <> "" -> Str.endswith root os_path.sep = false ->
  Str.startswith a os_path.sep = false -> a <> "" ->
  Str.endswith a os_path.sep = false ->
  Str.startswith b os_path.sep = false -> b <> "" ->
  Str.endswith b os_path.sep = false ->
  Str.startswith c os_path.sep = false -> c <> "" ->
  Str.endswith c os_path.sep = false ->
  Str.startswith f os_path.sep = false ->
  os_path.join (os_path.join (os_path.join root [a; b]) [c]) [f]
  = root ++ "/" ++ a ++ "/" ++ b ++ "/" ++ c ++ "/" ++ f.
Proof.
  intros Hr Er Sa Na Ea Sb Nb Eb Sc Nc Ec Sf.
  unfold os_path.join. cbn [fold_left].
  destruct (join_step_chain Hr Er Sa Na Ea) as [E1 [N1 S1]]. rewrite E1.
  destruct (join_step_chain N1 S1 Sb Nb Eb) as [E2 [N2 S2]]. rewrite E2.
  destruct (join_step_chain N2 S2 Sc Nc Ec) as [E3 [N3 S3]]. rewrite E3.
  rewrite (@join_step_relative _ f N3 S3 Sf).
  now rewrite !string_app_assoc.
Qed.

(** X12. The three joins compose: with the archive extracted at a root
    that is not empty and does not end with "/", every file the example
    generator opens for a split descriptor of split setup is at
    [<root>/aclImdb/<split name>/<label>/<filename>] (for a file name
    that does not start with "/"), the label of the file being the name
    of its subdirectory. *)
Theorem split_files_under_root
  (stored_record item : Type)
  (encode_example : IMDBReviews -> example_dict -> stored_record)
  (getitem : stored_record -> string -> item)
  (self : IMDBReviews) (dl_manager : DownloadManager) (fs fs' : FileSystem)
  (log : build_log item) (root : string) (sgs : list SplitGenerator)
  (sg : SplitGenerator) (dir d lbl f : string) :
  root <> "" -> Str.endswith root "/" = false ->
  download_and_extract dl_manager _DOWNLOAD_URL = inr root ->
  snd (_split_generators encode_example getitem self dl_manager fs log)
    = inr sgs ->
  In sg sgs -> gen_kwargs sg = [("directory", dir)] ->
  In (d, lbl, f) (sources fs' dir) -> Str.startswith f "/" = false ->
  os_path.join d [f]
  = root ++ "/aclImdb/" ++ Split_name (split sg) ++ "/" ++ lbl ++ "/" ++ f.
Proof.
  intros Hne He Hd Hs Hsg Hk Hin Hf.
  apply split_generators_inr in Hs. destruct Hs as [root' [Hd' ->]].
  rewrite Hd in Hd'. injection Hd' as <-.
  apply sources_labels in Hin.
  destruct Hsg as [<-|[<-|[]]]; cbn [gen_kwargs split Split_name] in *;
    injection Hk as <-;
    destruct Hin as [[-> ->] | [-> ->]];
    apply (@join_components root "aclImdb" _ _ f);
    try reflexivity; try assumption; discriminate.
Qed.

Lemma split_files_under_root_witness :
  os_path.join "/data/aclImdb/train/neg" ["0_3.txt"]
  = "/data" ++ "/aclImdb/" ++ Split_name TRAIN ++ "/" ++ "neg" ++ "/"
    ++ "0_3.txt".
Proof.
  apply (@split_files_under_root example_dict string store_as_is field
           (builder_of plain_text_config) (extracted_at "/data")
           extracted_fs extracted_fs [] "/data"
           [ {| split := TRAIN; num_shards := 10;
                gen_kwargs := [("directory", "/data/aclImdb/train")] |};
             {| split := TEST; num_shards := 10;
                gen_kwargs := [("directory", "/data/aclImdb/test")] |} ]
           {| split := TRAIN; num_shards := 10;
              gen_kwargs := [("directory", "/data/aclImdb/train")] |}
           "/data/aclImdb/train" "/data/aclImdb/train/neg" "neg" "0_3.txt").
  - discriminate.
  - reflexivity.
  - reflexivity.
  - reflexivity.
  - left. reflexivity.
  - reflexivity.
  - right. left. reflexivity.
  - reflexivity.
Defined.



(** ** The calls of a run *)

Example generate_examples_calls_broken :
  _generate_examples_calls store_as_is (builder_of plain_text_config)
    broken_fs "train"
  = ([ Listing "train/pos";
       Opening "train/pos/0_9.txt"; Entered "train/pos/0_9.txt";
       Reading "train/pos/0_9.txt";
       Yielding {| text := "Loved it."; label := "pos" |};
       Exited "train/pos/0_9.txt";
       Opening "train/pos/1_7.txt"; Entered "train/pos/1_7.txt";
       Reading "train/pos/1_7.txt"; Exited "train/pos/1_7.txt" ],
     inl (PermissionDeniedError "train/pos/1_7.txt")).
Proof. reflexivity. Qed.

Section EventFacts.

Context {R : Type}.

Lemma yields_of_app (a b : list (event R)) :
  yields_of (a ++ b) = (yields_of a ++ yields_of b)%list.
Proof. apply flat_map_app. Qed.

Lemma openings_app (a b : list (event R)) :
  openings (a ++ b) = (openings a ++ openings b)%list.
Proof. apply flat_map_app. Qed.

Lemma listings_app (a b : list (event R)) :
  listings (a ++ b) = (listings a ++ listings b)%list.
Proof. apply flat_map_app. Qed.

Lemma open_after_app (opened : list string) (a b : list (event R)) :
  open_after opened (a ++ b) = open_after (open_after opened a) b.
Proof.
  revert opened. induction a as [|[] a IH]; intros opened; simpl; auto.
Qed.

Lemma settled_nil : settled (@nil (event R)).
Proof. split; reflexivity. Qed.

Lemma settled_app (a b : list (event R)) :
  settled a -> settled b -> settled (a ++ b).
Proof.
  intros [Ha La] [Hb Lb]. split.
  - now rewrite open_after_app, Ha.
  - rewrite openings_app, yields_of_app, !length_app. lia.
Qed.

Lemma orderly_nil : orderly (@nil (event R)).
Proof.
  split; [reflexivity|]. split.
  - intros pre post H. symmetry in H. apply app_eq_nil in H.
    destruct H as [-> _]. simpl. lia.
  - intros pre r post H. destruct pre; discriminate.
Qed.

(** Orderly events after settled, orderly ones are orderly. *)
Lemma orderly_app (a b : list (event R)) :
  orderly a -> settled a -> orderly b -> orderly (a ++ b).
Proof.
  intros [Ea [Pa Ya]] [Sa La] [Eb [Pb Yb]]. split; [|split].
  - now rewrite open_after_app, Sa.
  - intros pre post H. apply app_eq_app in H.
    destruct H as [l [[-> ->]|[-> ->]]].
    + now apply (Pa pre l).
    + rewrite open_after_app, Sa. now apply (Pb l post).
  - intros pre r post H. apply app_eq_app in H.
    destruct H as [l [[-> Hl]|[-> Hb]]].
    + destruct l as [|ev l].
      * simpl in Hl. rewrite app_nil_r in *.
        destruct (Yb [] r post (eq_sym Hl)) as [path [before [post' [Ho _]]]].
        destruct before; discriminate Ho.
      * injection Hl as <- ->.
        destruct (Ya pre r l eq_refl) as [path [before [post' [Ho [Hs ->]]]]].
        exists path, before, (post' ++ b)%list. repeat split; try assumption;
          apply Hs.
    + destruct (Yb l r post Hb) as [path [before [post' [-> [Hs ->]]]]].
      exists path, (a ++ before)%list, post'. split; [|split].
      * now rewrite app_assoc.
      * apply settled_app; [split|]; assumption.
      * reflexivity.
Qed.

End EventFacts.

(** Taking a known list of events apart at each of its prefixes. *)
Ltac prefix_cases H tac :=
  match type of H with
  | (_ :: _) = (?pre ++ _)%list =>
      destruct pre as [|? pre]; simpl in H;
      [tac | injection H as <- H; prefix_cases H tac]
  | [] = (?pre ++ _)%list =>
      destruct pre; simpl in H; [tac | discriminate H]
  end.

Ltac open_files :=
  cbn [open_after]; rewrite ?remove_cons; cbn [remove length]; try lia.

Section FileEvents.

Context {R : Type}.

Lemma orderly_open_failed (p : string) : orderly [@Opening R p].
Proof.
  split; [reflexivity|]. split.
  - intros pre post H. prefix_cases H open_files.
  - intros pre r post H. prefix_cases H ltac:(discriminate H).
Qed.

Lemma orderly_read_failed (p : string) :
  orderly [@Opening R p; Entered p; Reading p; Exited p].
Proof.
  split; [open_files; reflexivity|]. split.
  - intros pre post H. prefix_cases H open_files.
  - intros pre r post H. prefix_cases H ltac:(discriminate H).
Qed.

Lemma orderly_yielded (p : string) (r : R) :
  orderly [Opening p; Entered p; Reading p; Yielding r; Exited p].
Proof.
  split; [open_files; reflexivity|]. split.
  - intros pre post H. prefix_cases H open_files.
  - intros pre r' post H.
    prefix_cases H ltac:(try discriminate H).
    injection H as <- <-. exists p, [], []. repeat split.
Qed.

Lemma settled_yielded (p : string) (r : R) :
  settled [Opening p; Entered p; Reading p; Yielding r; Exited p].
Proof. split; [open_files; reflexivity | reflexivity]. Qed.

Lemma orderly_listing (d : string) : orderly [@Listing R d].
Proof.
  split; [reflexivity|]. split.
  - intros pre post H. prefix_cases H open_files.
  - intros pre r post H. prefix_cases H ltac:(discriminate H).
Qed.

Lemma settled_listing (d : string) : settled [@Listing R d].
Proof. split; reflexivity. Qed.

End FileEvents.

Section WellBehaved.

Context {R : Type}.

Lemma well_behaved_call {A} (r : exn + A) : well_behaved (@call (event R) A r).
Proof. split; [apply orderly_nil | intros _ _; apply settled_nil]. Qed.

Lemma well_behaved_ret {A} (a : A) : well_behaved (@ret (event R) A a).
Proof. split; [apply orderly_nil | intros _ _; apply settled_nil]. Qed.

Lemma well_behaved_listing (d : string) : well_behaved (note (@Listing R d)).
Proof. split; [apply orderly_listing | intros _ _; apply settled_listing]. Qed.

Lemma well_behaved_bind {A B} (m : gen (event R) A) (k : A -> gen (event R) B) :
  well_behaved m -> (forall a, snd m = inr a -> well_behaved (k a)) ->
  well_behaved (x <- m ;; k x).
Proof.
  destruct m as [ys [e|a]]; intros [Om Sm] Hk; cbn [fst snd] in *.
  - split; [exact Om | discriminate].
  - destruct (Hk a eq_refl) as [Ok Sk]. specialize (Sm a eq_refl).
    unfold bind. destruct (k a) as [zs r]; cbn [fst snd] in *. split.
    + now apply orderly_app.
    + intros b Hb. apply settled_app; [assumption | now apply (Sk b)].
Qed.

Lemma well_behaved_for {X} (xs : list X) (body : X -> gen (event R) unit) :
  (forall x, In x xs -> well_behaved (body x)) -> well_behaved (for_ xs body).
Proof.
  induction xs as [|x xs IH]; intros H; cbn [for_].
  - apply well_behaved_ret.
  - apply well_behaved_bind.
    + apply H. now left.
    + intros _ _. apply IH. intros x' Hx'. apply H. now right.
Qed.

End WellBehaved.

Section CallsFacts.

Variable stored_record : Type.
Variable encode_example : IMDBReviews -> example_dict -> stored_record.
Variable self : IMDBReviews.
Variable fs : FileSystem.

(** What the body of the inner loop does with one file: its events and
    its ending, by the outcome of opening and of reading. *)
Lemma file_calls (d label filename : string) :
  (_ <- note (Opening (os_path.join d [filename])) ;;
   with_ (os_path.join d [filename]) (Open fs (os_path.join d [filename]))
     (fun imdb_f =>
        _ <- note (Reading (os_path.join d [filename])) ;;
        content <- call (read imdb_f) ;;
        note (Yielding
                (encode_example self
                   {| text := Str.strip content; label := label |}))))
  = let path := os_path.join d [filename] in
    match Open fs path with
    | inl e => ([Opening path], inl e)
    | inr imdb_f =>
        match read imdb_f with
        | inl e => ([Opening path; Entered path; Reading path; Exited path],
                    inl e)
        | inr content =>
            ([Opening path; Entered path; Reading path;
              Yielding (encode_example self
                          {| text := Str.strip content; label := label |});
              Exited path], inr tt)
        end
    end.
Proof.
  cbn zeta. unfold with_.
  destruct (Open fs (os_path.join d [filename])) as [e|imdb_f]; [reflexivity|].
  cbn. now destruct (read imdb_f).
Qed.

Lemma file_calls_well_behaved (d label filename : string) :
  well_behaved
    (_ <- note (Opening (os_path.join d [filename])) ;;
     with_ (os_path.join d [filename]) (Open fs (os_path.join d [filename]))
       (fun imdb_f =>
          _ <- note (Reading (os_path.join d [filename])) ;;
          content <- call (read imdb_f) ;;
          note (Yielding
                  (encode_example self
                     {| text := Str.strip content; label := label |})))).
Proof.
  rewrite file_calls. cbn zeta.
  destruct (Open fs (os_path.join d [filename])) as [e|imdb_f].
  - split; [apply orderly_open_failed | discriminate].
  - destruct (read imdb_f) as [e|content].
    + split; [apply orderly_read_failed | discriminate].
    + split; [apply orderly_yielded | intros _ _; apply settled_yielded].
Qed.

Lemma generate_examples_calls_well_behaved (directory : string) :
  well_behaved (_generate_examples_calls encode_example self fs directory).
Proof.
  unfold _generate_examples_calls. apply well_behaved_for.
  intros [d label] _. apply well_behaved_bind; [apply well_behaved_listing|].
  intros _ _. apply well_behaved_bind; [apply well_behaved_call|].
  intros filenames _. apply well_behaved_for.
  intros filename _. apply file_calls_well_behaved.
Qed.

End CallsFacts.

Lemma erase_bind {R A B} (m : gen (event R) A) (k : A -> gen (event R) B) :
  erase (x <- m ;; k x) = (x <- erase m ;; erase (k x)).
Proof.
  destruct m as [ys [e|a]]; [reflexivity|].
  unfold erase, bind. cbn [fst snd]. destruct (k a) as [zs r]. cbn [fst snd].
  now rewrite yields_of_app.
Qed.

Lemma erase_for {R X} (xs : list X) (body : X -> gen (event R) unit) :
  erase (for_ xs body) = for_ xs (fun x => erase (body x)).
Proof.
  induction xs as [|x xs IH]; [reflexivity|].
  cbn [for_]. now rewrite erase_bind, IH.
Qed.

(** X14. The traced generator is the example generator: forgetting every
    event of its run but the yields leaves the run of
    [_generate_examples], with the same values in the same order and the
    same ending. *)
Theorem generate_examples_calls_erased
  (stored_record : Type)
  (encode_example : IMDBReviews -> example_dict -> stored_record)
  (self : IMDBReviews) (fs : FileSystem) (directory : string) :
  erase (_generate_examples_calls encode_example self fs directory)
  = _generate_examples encode_example self fs directory.
Proof.
  unfold _generate_examples_calls, _generate_examples.
  rewrite erase_for. apply for_ext. intros [d label] _.
  rewrite erase_bind.
  change (erase (note (Listing d))) with (@call stored_record unit (inr tt)).
  rewrite bind_call_inr, erase_bind.
  destruct (ListDirectory fs d) as [e|filenames]; [reflexivity|].
  change (erase (call (inr filenames)))
    with (@call stored_record _ (inr filenames)).
  rewrite !bind_call_inr, erase_for. apply for_ext. intros filename _.
  rewrite file_calls. cbn zeta.
  destruct (Open fs (os_path.join d [filename])) as [e|imdb_f]; [reflexivity|].
  rewrite bind_call_inr. now destruct (read imdb_f).
Qed.

(** X15. A run never has two files open and leaves none open, however it
    ends: after any part of the run at most one file is inside its
    [with] block, and after the whole run none is, also when opening or
    reading a file raised. *)
Theorem generate_examples_closes_files
  (stored_record : Type)
  (encode_example : IMDBReviews -> example_dict -> stored_record)
  (self : IMDBReviews) (fs : FileSystem) (directory : string) :
  open_after []
    (fst (_generate_examples_calls encode_example self fs directory)) = []
  /\ (forall pre post,
        fst (_generate_examples_calls encode_example self fs directory)
        = (pre ++ post)%list ->
        length (open_after [] pre) <= 1).
Proof.
  destruct (generate_examples_calls_well_behaved encode_example self fs
              directory) as [[He [Hp _]] _].
  split; assumption.
Qed.

(** X16. Each example is yielded inside the [with] block of its file:
    right before the yield that file, and no other, was opened, entered
    and read, so that it is the one open file while the consumer holds
    the example, and the next thing the run does is to close it. *)
Theorem generate_examples_yields_with_file_open
  (stored_record : Type)
  (encode_example : IMDBReviews -> example_dict -> stored_record)
  (self : IMDBReviews) (fs : FileSystem) (directory : string)
  (pre post : list (event stored_record)) (r : stored_record) :
  fst (_generate_examples_calls encode_example self fs directory)
  = (pre ++ Yielding r :: post)%list ->
  exists path before post',
    pre = (before ++ [Opening path; Entered path; Reading path])%list
    /\ open_after [] before = []
    /\ open_after [] pre = [path]
    /\ post = Exited path :: post'.
Proof.
  intros H.
  destruct (generate_examples_calls_well_behaved encode_example self fs
              directory) as [[_ [_ Hy]] _].
  destruct (Hy pre r post H) as [path [before [post' [-> [[Ho _] ->]]]]].
  exists path, before, post'. repeat split; try assumption.
  rewrite open_after_app, Ho. reflexivity.
Qed.

Lemma generate_examples_yields_with_file_open_witness :
  exists path (before post' : list (event example_dict)),
    [ Listing "train/pos";
      Opening "train/pos/0_9.txt"; Entered "train/pos/0_9.txt";
      Reading "train/pos/0_9.txt" ]
    = (before ++ [Opening path; Entered path; Reading path])%list
    /\ open_after [] before = []
    /\ open_after []
         [ @Listing example_dict "train/pos";
           Opening "train/pos/0_9.txt"; Entered "train/pos/0_9.txt";
           Reading "train/pos/0_9.txt" ] = [path]
    /\ [ @Exited example_dict "train/pos/0_9.txt";
         Opening "train/pos/1_7.txt"; Entered "train/pos/1_7.txt";
         Reading "train/pos/1_7.txt"; Exited "train/pos/1_7.txt" ]
       = Exited path :: post'.
Proof.
  apply (@generate_examples_yields_with_file_open example_dict store_as_is
           (builder_of plain_text_config) broken_fs "train"
           [ Listing "train/pos";
             Opening "train/pos/0_9.txt"; Entered "train/pos/0_9.txt";
             Reading "train/pos/0_9.txt" ]
           [ Exited "train/pos/0_9.txt";
             Opening "train/pos/1_7.txt"; Entered "train/pos/1_7.txt";
             Reading "train/pos/1_7.txt"; Exited "train/pos/1_7.txt" ]
           {| text := "Loved it."; label := "pos" |}).
  reflexivity.
Defined.

Section CallsShape.

Variable stored_record : Type.
Variable encode_example : IMDBReviews -> example_dict -> stored_record.
Variable self : IMDBReviews.
Variable fs : FileSystem.

Lemma generate_examples_calls_shape (directory : string) :
  _generate_examples_calls encode_example self fs directory
  = (_ <- calls_of_directory (encode_example self) fs
            (os_path.join directory ["pos"]) "pos" ;;
     calls_of_directory (encode_example self) fs
       (os_path.join directory ["neg"]) "neg").
Proof.
  unfold _generate_examples_calls. cbn [for_].
  rewrite bind_ret_tt.
  assert (H : forall d label,
             (_ <- note (Listing d) ;;
              filenames <- call (ListDirectory fs d) ;;
              for_ filenames (fun filename =>
                _ <- note (Opening (os_path.join d [filename])) ;;
                with_ (os_path.join d [filename])
                  (Open fs (os_path.join d [filename]))
                  (fun imdb_f =>
                     _ <- note (Reading (os_path.join d [filename])) ;;
                     content <- call (read imdb_f) ;;
                     note (Yielding
                             (encode_example self
                                {| text := Str.strip content;
                                   label := label |})))))
             = calls_of_directory (encode_example self) fs d label).
  { intros d label. unfold calls_of_directory.
    destruct (ListDirectory fs d) as [e|filenames]; [reflexivity|].
    rewrite bind_call_inr.
    rewrite (for_ext filenames _ (calls_of_file (encode_example self) fs d label)).
    - unfold bind, note.
      now destruct (for_ filenames (calls_of_file (encode_example self) fs d label)).
    - intros filename _. apply file_calls. }
  now rewrite !H.
Qed.

(** The files of one subdirectory: no listing is made among them; the
    files opened are the first ones listed, each once and in order; and
    if their loop returns, all of them were opened and read. *)
Lemma calls_of_files (d label : string) (filenames : list string) :
  listings (fst (for_ filenames (calls_of_file (encode_example self) fs d label)))
  = []
  /\ exists k,
       k <= length filenames
       /\ openings
            (fst (for_ filenames (calls_of_file (encode_example self) fs d label)))
          = map (fun f => os_path.join d [f]) (firstn k filenames)
       /\ (forall u,
             snd (for_ filenames (calls_of_file (encode_example self) fs d label))
             = inr u ->
             k = length filenames
             /\ forall f, In f filenames ->
                  readable fs (os_path.join d [f]) = true).
Proof.
  induction filenames as [|f fl [IHl [k [Hk [IHo IHr]]]]].
  - split; [reflexivity|]. exists 0. repeat split; auto; intros f [].
  - cbn [for_]. unfold calls_of_file at 1 3 5. cbn zeta.
    unfold readable, read_text.
    destruct (Open fs (os_path.join d [f])) as [e|imdb_f] eqn:Ho.
    { split; [reflexivity|]. exists 1. cbn. repeat split; try lia.
      all: discriminate. }
    destruct (read imdb_f) as [e|content] eqn:Hr.
    { split; [reflexivity|]. exists 1. cbn. repeat split; try lia.
      all: discriminate. }
    unfold bind.
    destruct (for_ fl (calls_of_file (encode_example self) fs d label))
      as [zs r]. cbn [fst snd] in *. split.
    + rewrite listings_app, IHl. reflexivity.
    + exists (S k). split; [simpl; lia|]. split.
      * rewrite openings_app, IHo. reflexivity.
      * intros u Hu. destruct (IHr u Hu) as [-> Hall]. split; [reflexivity|].
        intros f' [<-|Hin].
        -- unfold readable, read_text. now rewrite Ho, Hr.
        -- now apply Hall.
Qed.

End CallsShape.

Section CallsOrder.

Variable stored_record : Type.
Variable encode_example : IMDBReviews -> example_dict -> stored_record.
Variable self : IMDBReviews.
Variable fs : FileSystem.

Lemma source_paths (d label : string) (filenames : list string) (k : nat) :
  map source_path (firstn k (map (fun f => (d, label, f)) filenames))
  = map (fun f => os_path.join d [f]) (firstn k filenames).
Proof. now rewrite firstn_map, map_map. Qed.

(** The files opened are the first files of the two listings, in order. *)
Lemma calls_openings (directory : string) :
  exists k,
    openings (fst (_generate_examples_calls encode_example self fs directory))
    = map source_path (firstn k (sources fs directory)).
Proof.
  rewrite generate_examples_calls_shape.
  unfold calls_of_directory at 1, sources, listing.
  destruct (ListDirectory fs (os_path.join directory ["pos"]))
    as [e|pos_files]; [exists 0; reflexivity|].
  cbn zeta.
  destruct (calls_of_files encode_example self fs
              (os_path.join directory ["pos"]) "pos" pos_files)
    as [_ [k [Hk [Ho Hr]]]].
  destruct (for_ pos_files _) as [ys [e|u]]; cbn [fst snd] in *.
  - exists k. cbn [bind fst]. change (openings (Listing _ :: ys)) with (openings ys).
    rewrite Ho, firstn_app, length_map.
    replace (k - length pos_files) with 0 by lia.
    now rewrite firstn_O, app_nil_r, source_paths.
  - destruct (Hr u eq_refl) as [-> _]. rewrite firstn_all in Ho.
    unfold calls_of_directory.
    destruct (ListDirectory fs (os_path.join directory ["neg"]))
      as [e|neg_files].
    + exists (length pos_files). cbn [bind fst]. rewrite openings_app.
      change (openings (Listing _ :: ys)) with (openings ys).
      rewrite Ho. cbn [map app]. rewrite !app_nil_r.
      rewrite <- (length_map (fun f => (os_path.join directory ["pos"], "pos", f))
                    pos_files) at 1.
      now rewrite firstn_all, map_map.
    + cbn zeta.
      destruct (calls_of_files encode_example self fs
                  (os_path.join directory ["neg"]) "neg" neg_files)
        as [_ [k' [Hk' [Ho' _]]]].
      destruct (for_ neg_files _) as [zs r]; cbn [fst snd] in *.
      exists (length pos_files + k'). cbn [bind fst]. rewrite openings_app.
      change (openings (Listing (os_path.join directory ["pos"]) :: ys))
        with (openings ys).
      change (openings (Listing (os_path.join directory ["neg"]) :: zs))
        with (openings zs).
      rewrite Ho, Ho'.
      rewrite <- (length_map (fun f => (os_path.join directory ["pos"], "pos", f))
                    pos_files) at 1.
      now rewrite firstn_app_2, map_app, map_map, source_paths.
Qed.

End CallsOrder.

Lemma firstn_own_length {A} (k : nat) (l : list A) :
  firstn (length (firstn k l)) l = firstn k l.
Proof.
  rewrite length_firstn.
  destruct (Nat.le_ge_cases k (length l)) as [H|H].
  - now rewrite Nat.min_l.
  - rewrite Nat.min_r by assumption.
    now rewrite firstn_all, firstn_all2.
Qed.

Lemma firstn_S_nth_error {A} (l : list A) (n : nat) (x : A) :
  nth_error l n = Some x -> firstn (S n) l = (firstn n l ++ [x])%list.
Proof.
  revert l. induction n as [|n IH]; intros [|a l]; simpl; try discriminate.
  - now intros [= ->].
  - intros H. now rewrite <- (IH l H).
Qed.

(** X17. No file is opened twice and none is skipped: the paths
    [tf.gfile.Open] is called on during a run are, in order, the paths of
    the first files of the two listings, as many of them as calls were
    made. *)
Theorem generate_examples_opens_files_in_order
  (stored_record : Type)
  (encode_example : IMDBReviews -> example_dict -> stored_record)
  (self : IMDBReviews) (fs : FileSystem) (directory : string) :
  openings (fst (_generate_examples_calls encode_example self fs directory))
  = map source_path
      (firstn
         (length (openings
                    (fst (_generate_examples_calls encode_example self fs
                            directory))))
         (sources fs directory)).
Proof.
  destruct (calls_openings encode_example self fs directory) as [k ->].
  now rewrite length_map, firstn_own_length.
Qed.

Example opens_before_failure :
  openings (fst (_generate_examples_calls store_as_is
                   (builder_of plain_text_config) broken_fs "train"))
  = ["train/pos/0_9.txt"; "train/pos/1_7.txt"]
  /\ map source_path (sources broken_fs "train")
     = ["train/pos/0_9.txt"; "train/pos/1_7.txt"; "train/neg/0_3.txt"].
Proof. split; reflexivity. Qed.

(** X18. The generator is lazy: when it yields its [n]-th example it has
    opened the first [n] files of the listings and no other, and the file
    open at that moment is the [n]-th one. *)
Theorem generate_examples_calls_lazy
  (stored_record : Type)
  (encode_example : IMDBReviews -> example_dict -> stored_record)
  (self : IMDBReviews) (fs : FileSystem) (directory : string)
  (pre post : list (event stored_record)) (r : stored_record) :
  fst (_generate_examples_calls encode_example self fs directory)
  = (pre ++ Yielding r :: post)%list ->
  openings pre
  = map source_path
      (firstn (S (length (yields_of pre))) (sources fs directory))
  /\ exists s,
       nth_error (sources fs directory) (length (yields_of pre)) = Some s
       /\ open_after [] pre = [source_path s].
Proof.
  intros H.
  destruct (generate_examples_calls_well_behaved encode_example self fs
              directory) as [[_ [_ Hy]] _].
  destruct (Hy pre r post H) as [path [before [post' [Hpre [[Ho Hl] _]]]]].
  assert (Hlen : length (openings pre) = S (length (yields_of pre))).
  { rewrite Hpre, openings_app, yields_of_app, !length_app. simpl. lia. }
  destruct (calls_openings encode_example self fs directory) as [k Hk].
  rewrite H, openings_app in Hk.
  assert (Hop : openings pre
                = map source_path
                    (firstn (S (length (yields_of pre)))
                       (sources fs directory))).
  { apply (f_equal (firstn (length (openings pre)))) in Hk.
    rewrite firstn_app, Nat.sub_diag, firstn_all, firstn_O, app_nil_r in Hk.
    rewrite Hlen in Hk. rewrite firstn_map, firstn_firstn in Hk.
    assert (Hmin : Nat.min (S (length (yields_of pre))) k
                   = S (length (yields_of pre))).
    { apply (f_equal (@length string)) in Hk.
      rewrite length_map, length_firstn, Hlen in Hk. lia. }
    now rewrite Hmin in Hk. }
  split; [exact Hop|].
  assert (Hn : length (yields_of pre) < length (sources fs directory)).
  { apply (f_equal (@length string)) in Hop.
    rewrite length_map, length_firstn in Hop. lia. }
  destruct (nth_error (sources fs directory) (length (yields_of pre)))
    as [s|] eqn:Hs; [|apply nth_error_None in Hs; lia].
  exists s. split; [reflexivity|].
  rewrite (@firstn_S_nth_error _ (sources fs directory) _ s Hs) in Hop.
  rewrite Hpre in Hop at 1.
  rewrite openings_app, map_app in Hop. cbn [openings flat_map map app] in Hop.
  apply app_inj_tail in Hop. destruct Hop as [_ Hp].
  rewrite Hpre, open_after_app, Ho. cbn [open_after]. now rewrite Hp.
Qed.

Lemma generate_examples_calls_lazy_witness :
  openings [ @Listing example_dict "train/pos";
             Opening "train/pos/0_9.txt"; Entered "train/pos/0_9.txt";
             Reading "train/pos/0_9.txt" ]
  = map source_path (firstn 1 (sources broken_fs "train"))
  /\ exists s,
       nth_error (sources broken_fs "train") 0 = Some s
       /\ open_after []
            [ @Listing example_dict "train/pos";
              Opening "train/pos/0_9.txt"; Entered "train/pos/0_9.txt";
              Reading "train/pos/0_9.txt" ]
          = [source_path s].
Proof.
  apply (@generate_examples_calls_lazy example_dict store_as_is
           (builder_of plain_text_config) broken_fs "train"
           [ Listing "train/pos";
             Opening "train/pos/0_9.txt"; Entered "train/pos/0_9.txt";
             Reading "train/pos/0_9.txt" ]
           [ Exited "train/pos/0_9.txt";
             Opening "train/pos/1_7.txt"; Entered "train/pos/1_7.txt";
             Reading "train/pos/1_7.txt"; Exited "train/pos/1_7.txt" ]
           {| text := "Loved it."; label := "pos" |}).
  reflexivity.
Defined.

(** X19. A run lists "pos" first and nothing but "pos" and "neg": it
    lists "neg" only once the listing of "pos" has returned and every
    file of it has been opened and read, and never lists anything
    else. *)
Theorem generate_examples_lists_neg_after_pos
  (stored_record : Type)
  (encode_example : IMDBReviews -> example_dict -> stored_record)
  (self : IMDBReviews) (fs : FileSystem) (directory : string) :
  listings (fst (_generate_examples_calls encode_example self fs directory))
    = [os_path.join directory ["pos"]]
  \/ (listings (fst (_generate_examples_calls encode_example self fs directory))
      = [os_path.join directory ["pos"]; os_path.join directory ["neg"]]
      /\ exists pos_files,
           ListDirectory fs (os_path.join directory ["pos"]) = inr pos_files
           /\ forall f, In f pos_files ->
                readable fs
                  (os_path.join (os_path.join directory ["pos"]) [f]) = true).
Proof.
  remember (listings
              (fst (_generate_examples_calls encode_example self fs directory)))
    as ls eqn:E.
  rewrite generate_examples_calls_shape in E.
  unfold calls_of_directory at 1 in E.
  destruct (ListDirectory fs (os_path.join directory ["pos"]))
    as [e|pos_files]; [left; exact E|].
  cbn zeta in E.
  destruct (calls_of_files encode_example self fs
              (os_path.join directory ["pos"]) "pos" pos_files)
    as [Hl [k [_ [_ Hr]]]].
  destruct (for_ pos_files _) as [ys [e|u]]; cbn [fst snd] in *.
  - left. cbn [bind fst] in E.
    change (listings (Listing (os_path.join directory ["pos"]) :: ys))
      with (os_path.join directory ["pos"] :: listings ys) in E.
    now rewrite Hl in E.
  - right. destruct (Hr u eq_refl) as [_ Hall]. split; [|eauto].
    unfold calls_of_directory in E.
    destruct (ListDirectory fs (os_path.join directory ["neg"]))
      as [e|neg_files].
    + cbn [bind fst] in E. rewrite listings_app in E.
      change (listings (Listing (os_path.join directory ["pos"]) :: ys))
        with (os_path.join directory ["pos"] :: listings ys) in E.
      now rewrite Hl in E.
    + cbn zeta in E.
      destruct (calls_of_files encode_example self fs
                  (os_path.join directory ["neg"]) "neg" neg_files)
        as [Hl' _].
      destruct (for_ neg_files _) as [zs r]; cbn [fst snd] in *.
      cbn [bind fst] in E. rewrite listings_app in E.
      change (listings (Listing (os_path.join directory ["pos"]) :: ys))
        with (os_path.join directory ["pos"] :: listings ys) in E.
      change (listings (Listing (os_path.join directory ["neg"]) :: zs))
        with (os_path.join directory ["neg"] :: listings zs) in E.
      now rewrite Hl, Hl' in E.
Qed.

Example listings_of_broken_run :
  listings (fst (_generate_examples_calls store_as_is
                   (builder_of plain_text_config) broken_fs "train"))
  = ["train/pos"]
  /\ listings (fst (_generate_examples_calls store_as_is
                      (builder_of plain_text_config) corpus_fs "train"))
     = ["train/pos"; "train/neg"].
Proof. split; reflexivity. Qed.

(** ** Encoding and configurations *)


